(** * AuthService of sustainapi: registration, login and wallet funding

    A shallow embedding of [src/modules/auth/auth.service.ts].  The service
    is a NestJS injectable with three collaborators (a TypeORM repository of
    [User] rows, a [ConfigService] and a [JwtService]) and two libraries
    (bcrypt and web3).  Every [async] method is embedded as a computation
    that threads the observable world (the rows of the user table and the
    trace of calls made to the outside) and completes either normally or by
    throwing. *)

From Stdlib Require Import String Ascii List ZArith Lia Bool.
Import ListNotations.

Local Open Scope string_scope.
Local Open Scope Z_scope.

(** ** Exceptions and completions *)

(** The three exception classes the file constructs.  [JsError] stands for
    [new Error(msg)] and for whatever a library throws. *)
Inductive Exception : Type :=
| JsError (msg : string)
| BadRequestException (msg : string)
| UnauthorizedException (msg : string).

Definition message (e : Exception) : string :=
  match e with
  | JsError m | BadRequestException m | UnauthorizedException m => m
  end.

(** How an awaited call ends: a value, or a thrown exception. *)
Inductive Completion (A : Type) : Type :=
| Return (a : A)
| Throw (e : Exception).
Arguments Return {A} a.
Arguments Throw {A} e.

(** ** Data model *)

(** Modelled from the spec: [user.entity.ts] is not among the sources.  The
    columns are the ones the service reads or writes ([id], [email],
    [password], [full_name], [wallet_address], [token_balance], [is_active],
    [is_verified], [created_at], [updated_at]) plus the last-login timestamp
    of the spec's data model.  Timestamps are milliseconds since the epoch. *)
Module User.
Record t : Type := mk {
  id : Z;
  email : string;
  password : string;
  full_name : string;
  wallet_address : option string;
  token_balance : Z;
  is_active : bool;
  is_verified : bool;
  created_at : Z;
  updated_at : Z;
  last_login_at : option Z
}.
End User.
Abbreviation User := User.t.

(** Modelled from the spec: [dto/register-user.dto.ts] is not among the
    sources; the four fields are the ones [register] destructures. *)
Record RegisterUserDto : Type := mkDto {
  dto_email : string;
  dto_password : string;
  dto_full_name : string;
  dto_wallet_address : option string
}.

(** The argument of [userRepository.create]: the columns set by hand. *)
Record UserDraft : Type := mkDraft {
  draft_email : string;
  draft_full_name : string;
  draft_password : string;
  draft_wallet_address : option string;
  draft_token_balance : Z
}.

(** The decoded content of a signed JWT: the payload handed to
    [jwtService.sign] and the issued-at/expiry claims (seconds). *)
Record Token : Type := mkToken {
  tk_email : string;
  tk_sub : Z;
  tk_iat : Z;
  tk_exp : Z
}.

(** JavaScript values as far as [login]'s object literal needs them.  An
    object is its list of properties in source order; [JsJwt] is a signed
    token string, kept as its decoded content. *)
#[warnings="-register-all"]
Inductive JsValue : Type :=
| JsUndefined
| JsNull
| JsBool (b : bool)
| JsNumber (n : Z)
| JsString (s : string)
| JsDate (ms : Z)
| JsJwt (t : Token)
| JsObject (props : list (string * JsValue)).

Definition js_keys (v : JsValue) : list string :=
  match v with
  | JsObject props => map fst props
  | _ => []
  end.

Fixpoint assoc_get (k : string) (props : list (string * JsValue)) : option JsValue :=
  match props with
  | [] => None
  | (k', v) :: rest => if String.eqb k k' then Some v else assoc_get k rest
  end.

(** Property access [v.k]; [None] is a missing property. *)
Definition js_get (k : string) (v : JsValue) : option JsValue :=
  match v with
  | JsObject props => assoc_get k props
  | _ => None
  end.

(** ** Ethereum-side data *)

Record Account : Type := mkAccount { address : string }.

(** The request of [web3.eth.estimateGas]. *)
Record CallRequest : Type := mkCall {
  call_from : string;
  call_to : option string;
  call_data : string
}.

(** The two shapes of the [tx] object built in [allocateTokensToWallet]. *)
Inductive Transaction : Type :=
| Eip1559Tx (from : string) (to : option string) (gas : Z)
            (maxPriorityFeePerGas maxFeePerGas : Z) (data : string)
| LegacyTx (from : string) (to : option string) (gas : Z)
           (gasPrice : Z) (data : string).

Record SignedTransaction : Type := mkSigned { rawTransaction : string }.

Record Receipt : Type := mkReceipt { transactionHash : string }.

Inductive EtherUnit : Type := gwei | ether.

Definition unit_decimals (u : EtherUnit) : Z :=
  match u with
  | gwei => 9
  | ether => 18
  end.

(** [web3.utils.toWei] on a whole number of units. *)
Definition toWei (n : Z) (u : EtherUnit) : Z := n * 10 ^ unit_decimals u.

(** ** The observable world *)

(** Calls that leave the service, in the order they are made. *)
Inductive Event : Type :=
| EvConfigGet (key : string)
| EvNewHttpProvider (url : string)
| EvPrivateKeyToAccount (key : option string)
| EvWalletAdd (a : Account)
| EvNewContract (addr : option string)
| EvEncodeTransfer (to : string) (value : Z)
| EvEstimateGas (req : CallRequest)
| EvGetGasPrice
| EvSignTransaction (tx : Transaction) (key : option string)
| EvSendSignedTransaction (raw : string)
| EvConsoleLog (r : Receipt)
| EvConsoleError (e : Exception).

(** The calls that go to the node: gas estimation, the gas price,
    broadcasting, and signing, since the transaction handed to the signer
    carries neither nonce nor chain id and web3 fetches what is missing. *)
Definition is_network_call (ev : Event) : bool :=
  match ev with
  | EvEstimateGas _ | EvGetGasPrice | EvSignTransaction _ _
  | EvSendSignedTransaction _ => true
  | _ => false
  end.

Record World : Type := mkWorld {
  db : list User;
  trace : list Event
}.

(** What the injected collaborators and the libraries answer.  They are
    outside the repository, so the service is verified for every choice.
    The bcrypt calls and the repository are taken to answer (their
    arguments are typed strings and the table is reachable); every web3
    call may throw.  Strings are sequences of code units, and the token
    amount is a whole number. *)
Record Deps : Type := mkDeps {
  (* bcrypt *)
  bcrypt_hash : string -> Z -> string;
  bcrypt_compare : string -> string -> bool;
  (* column defaults of the entity and the clock readings of one request *)
  default_is_active : bool;
  default_is_verified : bool;
  clock_save : Z;
  clock_access : Z;
  clock_refresh : Z;
  clock_response : Z;
  (* ConfigService *)
  config : string -> option string;
  (* web3 *)
  web3_http_provider : string -> Completion unit;
  web3_privateKeyToAccount : option string -> Completion Account;
  web3_wallet_add : Account -> Completion unit;
  web3_new_contract : option string -> Completion unit;
  web3_encode_transfer : string -> Z -> Completion string;
  web3_estimateGas : CallRequest -> Completion Z;
  web3_getGasPrice : Completion Z;
  web3_signTransaction : Transaction -> option string -> Completion SignedTransaction;
  web3_sendSignedTransaction : string -> Completion Receipt
}.

(** ** Asynchronous computations *)

Definition Async (A : Type) : Type := World -> Completion A * World.

Definition ret {A} (a : A) : Async A := fun w => (Return a, w).

Definition throw {A} (e : Exception) : Async A := fun w => (Throw e, w).

Definition bind {A B} (m : Async A) (k : A -> Async B) : Async B :=
  fun w =>
    match m w with
    | (Return a, w') => k a w'
    | (Throw e, w') => (Throw e, w')
    end.

(** [try { body } catch (error) { handler }]: what [body] did to the world
    before it threw stays done. *)
Definition try_catch {A} (body : Async A) (handler : Exception -> Async A) : Async A :=
  fun w =>
    match body w with
    | (Return a, w') => (Return a, w')
    | (Throw e, w') => handler e w'
    end.

Definition emit (ev : Event) : Async unit :=
  fun w => (Return tt, mkWorld (db w) (trace w ++ [ev])).

(** An outside call: recorded, then answered. *)
Definition call {A} (ev : Event) (answer : Completion A) : Async A :=
  fun w => (answer, mkWorld (db w) (trace w ++ [ev])).

Declare Scope async_scope.
Delimit Scope async_scope with async.
Notation "x <- m ;; k" := (bind m (fun x => k))
  (at level 100, m at next level, right associativity) : async_scope.
Notation "m ;;; k" := (bind m (fun _ => k))
  (at level 100, right associativity) : async_scope.
Local Open Scope async_scope.

(** ** The libraries, as far as the service relies on them *)

(** *** TypeORM repository of [User] *)

(** [findOne({ where: { email } })]: the first row with that email. *)
Definition find_by_email (e : string) (rows : list User) : option User :=
  find (fun u => String.eqb (User.email u) e) rows.

Definition findOne (e : string) : Async (option User) :=
  fun w => (Return (find_by_email e (db w)), w).

(** [create] only builds the entity in memory. *)
Definition create (e fn pw : string) (wa : option string) (tb : Z) : UserDraft :=
  mkDraft e fn pw wa tb.

(** The generated primary key: one more than the largest so far. *)
Definition next_id (rows : list User) : Z :=
  1 + fold_right (fun u m => Z.max (User.id u) m) 0 rows.

(** *** jsonwebtoken *)

Definition is_digit (c : ascii) : bool :=
  let n := nat_of_ascii c in (48 <=? n)%nat && (n <=? 57)%nat.

Definition digit_value (c : ascii) : Z := Z.of_nat (nat_of_ascii c) - 48.

Fixpoint span_digits (s : string) (acc : Z) : Z * string :=
  match s with
  | String c rest =>
      if is_digit c then span_digits rest (acc * 10 + digit_value c) else (acc, s)
  | EmptyString => (acc, EmptyString)
  end.

Definition unit_seconds (u : string) : option Z :=
  if String.eqb u "s" then Some 1
  else if String.eqb u "m" then Some 60
  else if String.eqb u "h" then Some 3600
  else if String.eqb u "d" then Some 86400
  else if String.eqb u "w" then Some 604800
  else None.

(** The [expiresIn] option given as a string: a count and a unit letter. *)
Definition timespan (s : string) : option Z :=
  match s with
  | String c _ =>
      if is_digit c then
        let (n, u) := span_digits s 0 in
        option_map (Z.mul n) (unit_seconds u)
      else None
  | EmptyString => None
  end.

(** [jwtService.sign(payload, { expiresIn })] at clock reading [now_ms]:
    [iat] is the reading in whole seconds, [exp] is [iat] plus the span.
    The JWT module is taken to be configured with its secret, so that the
    signer answers whenever the lifetime is well formed; what [login] does
    when the signer throws for another reason is not modelled. *)
Definition jwt_sign (payload : string * Z) (expiresIn : string) (now_ms : Z)
  : Async Token :=
  match timespan expiresIn with
  | Some span =>
      let iat := now_ms / 1000 in
      ret (mkToken (fst payload) (snd payload) iat (iat + span))
  | None => throw (JsError "expiresIn should be a number of seconds or string representing a timespan")
  end.

Section Service.

Variable deps : Deps.

(** [save] of an entity without primary key inserts one row; the key, the
    column defaults and the timestamps are filled in, and the stored row
    is what the promise resolves to. *)
Definition save (d : UserDraft) : Async User :=
  fun w =>
    let u := {| User.id := next_id (db w);
                User.email := draft_email d;
                User.password := draft_password d;
                User.full_name := draft_full_name d;
                User.wallet_address := draft_wallet_address d;
                User.token_balance := draft_token_balance d;
                User.is_active := default_is_active deps;
                User.is_verified := default_is_verified deps;
                User.created_at := clock_save deps;
                User.updated_at := clock_save deps;
                User.last_login_at := None |} in
    (Return u, mkWorld (db w ++ [u]) (trace w)).

(** ** AuthService *)

Definition INITIAL_TOKEN_ALLOCATION : Z := 1000.

Definition register (registerUserDto : RegisterUserDto) : Async User :=
  let email := dto_email registerUserDto in
  let password := dto_password registerUserDto in
  let full_name := dto_full_name registerUserDto in
  let wallet_address := dto_wallet_address registerUserDto in
  existingUser <- findOne email ;;
  match existingUser with
  | Some _ => throw (BadRequestException "Email is already registered")
  | None =>
      hashedPassword <- ret (bcrypt_hash deps password 10) ;;
      let newUser :=
        create email full_name hashedPassword wallet_address INITIAL_TOKEN_ALLOCATION in
      savedUser <- save newUser ;;
      ret savedUser
  end.

Definition validateUser (email password : string) : Async (option User) :=
  user <- findOne email ;;
  match user with
  | None => ret None
  | Some user =>
      isPasswordMatching <- ret (bcrypt_compare deps password (User.password user)) ;;
      if negb isPasswordMatching then ret None
      else ret (Some user)
  end.

Definition login (email password : string) : Async JsValue :=
  user <- validateUser email password ;;
  match user with
  | None => throw (UnauthorizedException "Invalid credentials")
  | Some user =>
      let payload := (User.email user, User.id user) in
      access_token <- jwt_sign payload "1h" (clock_access deps) ;;
      refresh_token <- jwt_sign payload "7d" (clock_refresh deps) ;;
      ret (JsObject
        [ ("status", JsString "success");
          ("message", JsString "Login successful");
          ("data", JsObject
            [ ("user", JsObject
                [ ("id", JsNumber (User.id user));
                  ("full_name", JsString (User.full_name user));
                  ("email", JsString (User.email user));
                  ("is_active", JsBool (User.is_active user));
                  ("is_verified", JsBool (User.is_verified user));
                  ("token_balance", JsNumber (User.token_balance user));
                  ("created_at", JsDate (User.created_at user));
                  ("updated_at", JsDate (User.updated_at user));
                  ("last_login_at", JsDate (clock_response deps)) ]);
              ("access_token", JsJwt access_token);
              ("refresh_token", JsJwt refresh_token) ]) ])
  end.

(** *** Wallet funding *)

Definition config_get (key : string) : Async (option string) :=
  call (EvConfigGet key) (Return (config deps key)).

(** [v || d] on an optional string: [undefined] and [''] are falsy. *)
Definition js_or (v : option string) (d : string) : string :=
  match v with
  | Some s => if String.eqb s "" then d else s
  | None => d
  end.

(** An optional string inside a template literal. *)
Definition interpolate (v : option string) : string :=
  match v with
  | Some s => s
  | None => "undefined"
  end.

(** [!privateKey || !privateKey.startsWith('0x') || privateKey.length !== 66] *)
Definition invalid_private_key (privateKey : option string) : bool :=
  match privateKey with
  | None => true
  | Some k =>
      String.eqb k ""
      || negb (String.prefix "0x" k)
      || negb (Nat.eqb (String.length k) 66)
  end.

(** The body of the [try] block. *)
Definition allocate_try (walletAddress : string) (amount : Z) : Async unit :=
  network <- (v <- config_get "NETWORK" ;; ret (js_or v "sepolia")) ;;
  infuraApiKey <- config_get "INFURA_API_KEY" ;;
  let url := "https://" ++ network ++ ".infura.io/v3/" ++ interpolate infuraApiKey in
  call (EvNewHttpProvider url) (web3_http_provider deps url) ;;;
  privateKey <- config_get "PRIVATE_KEY" ;;
  account <- call (EvPrivateKeyToAccount privateKey)
                  (web3_privateKeyToAccount deps privateKey) ;;
  (if invalid_private_key privateKey
   then throw (JsError "Invalid private key format")
   else ret tt) ;;;
  call (EvWalletAdd account) (web3_wallet_add deps account) ;;;
  contractAddress <- config_get "CONTRACT_ADDRESS" ;;
  call (EvNewContract contractAddress) (web3_new_contract deps contractAddress) ;;;
  data <- call (EvEncodeTransfer walletAddress (toWei amount ether))
               (web3_encode_transfer deps walletAddress (toWei amount ether)) ;;
  let isEIP1559 := true in
  let req := mkCall (address account) contractAddress data in
  gasEstimate <- call (EvEstimateGas req) (web3_estimateGas deps req) ;;
  tx <- (if isEIP1559 then
           let maxPriorityFeePerGas := toWei 2 gwei in
           let maxFeePerGas := toWei 100 gwei in
           ret (Eip1559Tx (address account) contractAddress gasEstimate
                          maxPriorityFeePerGas maxFeePerGas data)
         else
           gasPrice <- call EvGetGasPrice (web3_getGasPrice deps) ;;
           ret (LegacyTx (address account) contractAddress gasEstimate
                         gasPrice data)) ;;
  signedTx <- call (EvSignTransaction tx privateKey)
                   (web3_signTransaction deps tx privateKey) ;;
  receipt <- call (EvSendSignedTransaction (rawTransaction signedTx))
                  (web3_sendSignedTransaction deps (rawTransaction signedTx)) ;;
  emit (EvConsoleLog receipt).

Definition allocateTokensToWallet (walletAddress : string) (amount : Z) : Async unit :=
  try_catch (allocate_try walletAddress amount)
    (fun error =>
       emit (EvConsoleError error) ;;;
       throw (BadRequestException "Failed to allocate tokens to the wallet")).

End Service.

(** * Vocabulary of the properties *)

(** ** Lookup by email *)

Definition email_unknown (e : string) (rows : list User) : Prop :=
  forall u, In u rows -> User.email u <> e.

Definition email_taken (e : string) (rows : list User) : Prop :=
  exists u, In u rows /\ User.email u = e.

(** The invariant of the table: no two rows share an email. *)
Definition emails_unique (rows : list User) : Prop :=
  NoDup (map User.email rows).

(** ** Credentials *)

(** What a one-way hash owes its caller here: the digest bcrypt returns for
    [p] at the given cost is not [p] itself. *)
Definition digest_is_not_plaintext (deps : Deps) (p : string) (cost : Z) : Prop :=
  bcrypt_hash deps p cost <> p.

(** The credentials [validateUser] accepts: the row looked up by the email
    carries a digest the password compares equal to. *)
Definition valid_credentials (deps : Deps) (e pw : string) (w : World) (u : User) : Prop :=
  find_by_email e (db w) = Some u
  /\ bcrypt_compare deps pw (User.password u) = true.

(** The two ways credentials are rejected. *)
Definition unknown_email (e : string) (w : World) : Prop :=
  email_unknown e (db w).

Definition wrong_password (deps : Deps) (e pw : string) (w : World) : Prop :=
  exists u, find_by_email e (db w) = Some u
            /\ bcrypt_compare deps pw (User.password u) = false.

Fixpoint js_path (ks : list string) (v : JsValue) : option JsValue :=
  match ks with
  | [] => Some v
  | k :: ks' =>
      match js_get k v with
      | Some v' => js_path ks' v'
      | None => None
      end
  end.

(** ** Wallet funding *)

Definition ALLOCATION_FAILED : Exception :=
  BadRequestException "Failed to allocate tokens to the wallet".

(** The key as the specification rejects it: absent, without the hex prefix,
    or not 66 characters long. *)
Definition malformed_key (k : option string) : Prop :=
  k = None
  \/ exists s, k = Some s
               /\ (String.prefix "0x" s = false \/ String.length s <> 66%nat).

(** The web3 operation an event is a call of, if it is one. *)
Definition web3_operation (ev : Event) : option string :=
  match ev with
  | EvNewHttpProvider _ => Some "HttpProvider"
  | EvPrivateKeyToAccount _ => Some "privateKeyToAccount"
  | EvWalletAdd _ => Some "wallet.add"
  | EvNewContract _ => Some "Contract"
  | EvEncodeTransfer _ _ => Some "encodeABI"
  | EvEstimateGas _ => Some "estimateGas"
  | EvGetGasPrice => Some "getGasPrice"
  | EvSignTransaction _ _ => Some "signTransaction"
  | EvSendSignedTransaction _ => Some "sendSignedTransaction"
  | EvConfigGet _ | EvConsoleLog _ | EvConsoleError _ => None
  end.

Fixpoint web3_operations (evs : list Event) : list string :=
  match evs with
  | [] => []
  | ev :: rest =>
      match web3_operation ev with
      | Some op => op :: web3_operations rest
      | None => web3_operations rest
      end
  end.

Definition is_console_error (ev : Event) : bool :=
  match ev with
  | EvConsoleError _ => true
  | _ => false
  end.

(** ** A test double for the collaborators

    A concrete [Deps] for running the service: the digest of [p] is [p]
    behind the marker of a cost-10 bcrypt string, key derivation accepts a
    key of 66 characters once the prefix is supplied, and every RPC
    answers. *)

Definition stub_hash (p : string) (cost : Z) : string := "$2b$10$" ++ p.

Definition stub_compare (p h : string) : bool := String.eqb h (stub_hash p 10).

Definition stub_privateKeyToAccount (k : option string) : Completion Account :=
  match k with
  | None => Throw (JsError "Invalid Private Key, Not a valid string or uint8Array")
  | Some s =>
      let s' := if String.prefix "0x" s then s else "0x" ++ s in
      if Nat.eqb (String.length s') 66
      then Return (mkAccount "0xSender")
      else Throw (JsError "Private key must be 32 bytes long")
  end.

Definition stub_deps_rpc (cfg : string -> option string)
    (estimate : CallRequest -> Completion Z) : Deps :=
  {| bcrypt_hash := stub_hash;
     bcrypt_compare := stub_compare;
     default_is_active := true;
     default_is_verified := false;
     clock_save := 1700000000000;
     clock_access := 1700000100000;
     clock_refresh := 1700000100002;
     clock_response := 1700000100003;
     config := cfg;
     web3_http_provider := fun _ => Return tt;
     web3_privateKeyToAccount := stub_privateKeyToAccount;
     web3_wallet_add := fun _ => Return tt;
     web3_new_contract := fun _ => Return tt;
     web3_encode_transfer := fun to _ => Return ("0xa9059cbb" ++ to);
     web3_estimateGas := estimate;
     web3_getGasPrice := Return 30000000000;
     web3_signTransaction := fun _ _ => Return (mkSigned "0x02f8");
     web3_sendSignedTransaction := fun _ => Return (mkReceipt "0xbeef") |}.

Definition stub_deps (cfg : string -> option string) : Deps :=
  stub_deps_rpc cfg (fun _ => Return 52000).

Definition no_config : string -> option string := fun _ => None.

(** An environment with every variable set and [PRIVATE_KEY] set to [key]. *)
Definition env_with_key (key : string) : string -> option string :=
  fun name =>
    if String.eqb name "NETWORK" then Some "sepolia"
    else if String.eqb name "INFURA_API_KEY" then Some "abc123"
    else if String.eqb name "PRIVATE_KEY" then Some key
    else if String.eqb name "CONTRACT_ADDRESS" then Some "0xToken"
    else None.

Definition good_key : string :=
  "0x4c0883a69102937d6231471b5dbb6204fe5129617082792ae468d01a3f362318".

(** 64 hex digits, the prefix left out. *)
Definition bare_key : string :=
  "4c0883a69102937d6231471b5dbb6204fe5129617082792ae468d01a3f362318".

Definition rpc_down : CallRequest -> Completion Z :=
  fun _ => Throw (JsError "connect ECONNREFUSED").

(** The world a run reaches when the node refuses the gas estimation. *)
Definition rpc_down_world : World :=
  mkWorld []
    [ EvConfigGet "NETWORK"; EvConfigGet "INFURA_API_KEY";
      EvNewHttpProvider "https://sepolia.infura.io/v3/abc123";
      EvConfigGet "PRIVATE_KEY"; EvPrivateKeyToAccount (Some good_key);
      EvWalletAdd (mkAccount "0xSender");
      EvConfigGet "CONTRACT_ADDRESS"; EvNewContract (Some "0xToken");
      EvEncodeTransfer "0xRecipient" 1000000000000000000000;
      EvEstimateGas (mkCall "0xSender" (Some "0xToken") "0xa9059cbb0xRecipient") ].

Definition empty_world : World := mkWorld [] [].

Definition alice_dto : RegisterUserDto := mkDto "a@x.com" "secret" "A" None.

Definition alice : User :=
  User.mk 1 "a@x.com" "$2b$10$secret" "A" None 1000 true false
          1700000000000 1700000000000 None.

Definition alice_world : World := mkWorld [alice] [].

(** ** Vocabulary of the further properties *)

(** Registration requests served strictly one at a time: each call of
    [register] runs to completion, whichever way it ends, before the next
    one starts.  Requests that overlap are not of this form. *)
Fixpoint register_all (deps : Deps) (dtos : list RegisterUserDto) (w : World) : World :=
  match dtos with
  | [] => w
  | dto :: rest => register_all deps rest (snd (register deps dto w))
  end.

(** What [bcrypt.compare] owes [bcrypt.hash]: it accepts [p] against the
    digest made of [p]. *)
Definition digest_is_accepted (deps : Deps) (p : string) (cost : Z) : Prop :=
  bcrypt_compare deps p (bcrypt_hash deps p cost) = true.

(** A key the check of the wallet funder lets through. *)
Definition well_formed_key (k : option string) : Prop :=
  exists s, k = Some s
            /\ String.prefix "0x" s = true
            /\ String.length s = 66%nat.

(** The endpoint the provider is built for. *)
Definition provider_url (deps : Deps) : string :=
  "https://" ++ js_or (config deps "NETWORK") "sepolia"
  ++ ".infura.io/v3/" ++ interpolate (config deps "INFURA_API_KEY").

(** The transaction of a run in which the node estimated [gas] for [data]. *)
Definition funding_tx (deps : Deps) (account : Account) (data : string) (gas : Z)
  : Transaction :=
  Eip1559Tx (address account) (config deps "CONTRACT_ADDRESS") gas
            (toWei 2 gwei) (toWei 100 gwei) data.

(** The calls of a run that goes through, in order. *)
Definition funding_calls (deps : Deps) (walletAddress : string) (amount : Z)
    (account : Account) (data : string) (gas : Z)
    (signed : SignedTransaction) (receipt : Receipt) : list Event :=
  [ EvConfigGet "NETWORK";
    EvConfigGet "INFURA_API_KEY";
    EvNewHttpProvider (provider_url deps);
    EvConfigGet "PRIVATE_KEY";
    EvPrivateKeyToAccount (config deps "PRIVATE_KEY");
    EvWalletAdd account;
    EvConfigGet "CONTRACT_ADDRESS";
    EvNewContract (config deps "CONTRACT_ADDRESS");
    EvEncodeTransfer walletAddress (toWei amount ether);
    EvEstimateGas (mkCall (address account) (config deps "CONTRACT_ADDRESS") data);
    EvSignTransaction (funding_tx deps account data gas) (config deps "PRIVATE_KEY");
    EvSendSignedTransaction (rawTransaction signed);
    EvConsoleLog receipt ].

(** Every web3 call of a run answers, with these values. *)
Definition every_call_answers (deps : Deps) (walletAddress : string) (amount : Z)
    (account : Account) (data : string) (gas : Z)
    (signed : SignedTransaction) (receipt : Receipt) : Prop :=
  web3_http_provider deps (provider_url deps) = Return tt
  /\ web3_privateKeyToAccount deps (config deps "PRIVATE_KEY") = Return account
  /\ web3_wallet_add deps account = Return tt
  /\ web3_new_contract deps (config deps "CONTRACT_ADDRESS") = Return tt
  /\ web3_encode_transfer deps walletAddress (toWei amount ether) = Return data
  /\ web3_estimateGas deps
       (mkCall (address account) (config deps "CONTRACT_ADDRESS") data) = Return gas
  /\ web3_signTransaction deps (funding_tx deps account data gas)
       (config deps "PRIVATE_KEY") = Return signed
  /\ web3_sendSignedTransaction deps (rawTransaction signed) = Return receipt.

(** The two stretches of [register] on either side of its lookup: the
    lookup of line 27, and what follows once the lookup found nothing
    (hashing, [create] and [save], lines 33 to 52).  Another request can be
    served between the two. *)
Definition register_lookup (dto : RegisterUserDto) : Async (option User) :=
  findOne (dto_email dto).

Definition register_store (deps : Deps) (dto : RegisterUserDto) : Async User :=
  bind (ret (bcrypt_hash deps (dto_password dto) 10))
    (fun hashedPassword =>
       bind (save deps (create (dto_email dto) (dto_full_name dto) hashedPassword
                               (dto_wallet_address dto) INITIAL_TOKEN_ALLOCATION))
         (fun savedUser => ret savedUser)).

(** The exception a completion carries, if it is one. *)
Definition exception_of {A : Type} (c : Completion A) : option Exception :=
  match c with
  | Throw e => Some e
  | Return _ => None
  end.

(** The exception the web3 library answers a call with, if it throws. *)
Definition thrown_by (deps : Deps) (ev : Event) : option Exception :=
  match ev with
  | EvNewHttpProvider url => exception_of (web3_http_provider deps url)
  | EvPrivateKeyToAccount key => exception_of (web3_privateKeyToAccount deps key)
  | EvWalletAdd a => exception_of (web3_wallet_add deps a)
  | EvNewContract addr => exception_of (web3_new_contract deps addr)
  | EvEncodeTransfer to value => exception_of (web3_encode_transfer deps to value)
  | EvEstimateGas req => exception_of (web3_estimateGas deps req)
  | EvGetGasPrice => exception_of (web3_getGasPrice deps)
  | EvSignTransaction tx key => exception_of (web3_signTransaction deps tx key)
  | EvSendSignedTransaction raw => exception_of (web3_sendSignedTransaction deps raw)
  | EvConfigGet _ | EvConsoleLog _ | EvConsoleError _ => None
  end.

(** The test double with a node that estimates gas but whose signer and
    broadcast answer as given. *)
Definition stub_deps_node (cfg : string -> option string)
    (sign : Transaction -> option string -> Completion SignedTransaction)
    (send : string -> Completion Receipt) : Deps :=
  let d := stub_deps cfg in
  {| bcrypt_hash := bcrypt_hash d;
     bcrypt_compare := bcrypt_compare d;
     default_is_active := default_is_active d;
     default_is_verified := default_is_verified d;
     clock_save := clock_save d;
     clock_access := clock_access d;
     clock_refresh := clock_refresh d;
     clock_response := clock_response d;
     config := cfg;
     web3_http_provider := web3_http_provider d;
     web3_privateKeyToAccount := web3_privateKeyToAccount d;
     web3_wallet_add := web3_wallet_add d;
     web3_new_contract := web3_new_contract d;
     web3_encode_transfer := web3_encode_transfer d;
     web3_estimateGas := web3_estimateGas d;
     web3_getGasPrice := web3_getGasPrice d;
     web3_signTransaction := sign;
     web3_sendSignedTransaction := send |}.

Definition signer_ok : Transaction -> option string -> Completion SignedTransaction :=
  fun _ _ => Return (mkSigned "0x02f8").

Definition signer_down : Transaction -> option string -> Completion SignedTransaction :=
  fun _ _ => Throw (JsError "nonce lookup failed").

Definition broadcast_reverted : string -> Completion Receipt :=
  fun _ => Throw (JsError "Transaction has been reverted by the EVM").

Definition bob_dto : RegisterUserDto :=
  mkDto "b@x.com" "hunter2" "B" (Some "0xB0b").

(** ** Proof automation for runs of the wallet funder *)

(** Unfold one run of the method down to the answers of the collaborators. *)
Ltac unfold_run :=
  unfold allocateTokensToWallet, try_catch, allocate_try, config_get,
    bind, call, emit, ret, throw; simpl.

(** Split on the next answer the run depends on. *)
Ltac next_answer :=
  match goal with
  | |- context [match ?c with Return _ => _ | Throw _ => _ end] =>
      destruct c eqn:?; simpl
  | |- context [if invalid_private_key ?k then _ else _] =>
      destruct (invalid_private_key k) eqn:?; simpl
  end.

Ltac list_facts :=
  repeat match goal with
         | |- _ /\ _ => split
         | |- NoDup _ => constructor
         | |- Forall _ _ => constructor
         | |- ~ In _ _ => simpl; intuition discriminate
         | |- (_ <= _)%nat => simpl; lia
         | _ => reflexivity
         end.

Ltac new_events :=
  rewrite <- ?app_assoc; simpl; eexists; split; [reflexivity|].

(** Exhibit what precedes a given suffix of a list written out. *)
Ltac split_suffix :=
  match goal with
  | |- exists before, ?l = (before ++ ?suffix)%list =>
      let n := eval compute in (length l - length suffix)%nat in
      exists (firstn n l); reflexivity
  end.

(** Settle what a call of the run was answered with from the case at hand. *)
Ltac use_answer H :=
  simpl in H;
  try match goal with
      | Heq : ?c = _ |- _ =>
          match type of H with
          | exception_of c = _ => rewrite Heq in H; simpl in H
          end
      end;
  try discriminate H.

(** A call of the run that throws is followed by the log entry and nothing
    else. *)
Ltac throwing_call :=
  let ev := fresh "ev" in
  let cause := fresh "cause" in
  let Hin := fresh "Hin" in
  let Hth := fresh "Hth" in
  intros ev cause Hin Hth; simpl in Hin;
  repeat (destruct Hin as [Hin|Hin];
          [ subst ev; use_answer Hth; injection Hth as <-;
            (split; [reflexivity | split_suffix]) | ]);
  contradiction.

(** A key that was derived and fails the check ends the run. *)
Ltac rejected_key :=
  let key := fresh "key" in
  let Hin := fresh "Hin" in
  let Hnone := fresh "Hnone" in
  let Hinv := fresh "Hinv" in
  intros key Hin Hnone Hinv; simpl in Hin;
  repeat (destruct Hin as [Hin|Hin]; try discriminate Hin);
  try contradiction;
  injection Hin as <-;
  first [ congruence
        | solve [use_answer Hnone]
        | split; [reflexivity | split_suffix] ].

Ltac logged_last :=
  let H := fresh "H" in
  intros H; first [ discriminate H | eexists; split_suffix ].

Ltac never_logged :=
  let H := fresh "H" in
  let ev := fresh "ev" in
  let Hin := fresh "Hin" in
  intros H; first [ discriminate H | idtac ];
  intros ev Hin; simpl in Hin;
  repeat (destruct Hin as [Hin|Hin]; [subst ev; reflexivity|]);
  contradiction.

(** * Properties *)

(** ** Runs on the test double *)

Example register_alice :
  register (stub_deps no_config) alice_dto empty_world = (Return alice, alice_world).
Proof. reflexivity. Qed.

Example register_alice_again :
  register (stub_deps no_config) alice_dto alice_world
  = (Throw (BadRequestException "Email is already registered"), alice_world).
Proof. reflexivity. Qed.

Example timespan_1h : timespan "1h" = Some 3600.
Proof. reflexivity. Qed.

Example timespan_7d : timespan "7d" = Some 604800.
Proof. reflexivity. Qed.

(** ** Lookup by email *)

Lemma find_by_email_some e rows u :
  find_by_email e rows = Some u -> In u rows /\ User.email u = e.
Proof.
  unfold find_by_email. intros H. apply find_some in H.
  destruct H as [Hin Heq]. split; [assumption|].
  now apply String.eqb_eq.
Qed.

Lemma find_by_email_unknown e rows :
  email_unknown e rows -> find_by_email e rows = None.
Proof.
  intros Hu. destruct (find_by_email e rows) as [u|] eqn:Hf; [|reflexivity].
  apply find_by_email_some in Hf. destruct Hf as [Hin Heq].
  exfalso. exact (Hu u Hin Heq).
Qed.

Lemma find_by_email_taken e rows :
  email_taken e rows -> exists u, find_by_email e rows = Some u.
Proof.
  intros [u [Hin Heq]].
  destruct (find_by_email e rows) as [u'|] eqn:Hf; [now exists u'|].
  unfold find_by_email in Hf.
  pose proof (find_none _ _ Hf u Hin) as Hn. simpl in Hn.
  apply String.eqb_neq in Hn. contradiction.
Qed.

Lemma find_by_email_unique rows :
  emails_unique rows ->
  forall u, In u rows -> find_by_email (User.email u) rows = Some u.
Proof.
  unfold emails_unique, find_by_email.
  induction rows as [|r rows IH]; intros Hnd u Hin; [contradiction|].
  simpl in Hnd. inversion Hnd as [|? ? Hnotin Hnd']; subst.
  simpl. destruct Hin as [->|Hin].
  - now rewrite String.eqb_refl.
  - destruct (String.eqb_spec (User.email r) (User.email u)) as [Heq|Hneq].
    + exfalso. apply Hnotin. rewrite Heq. now apply in_map.
    + now apply IH.
Qed.

(** ** register *)

(** C2. A registration whose email already belongs to a stored user throws
    the validation error 'Email is already registered', and the world it
    leaves (the user table in particular) is the one it found: nothing is
    written on that path. *)
Theorem register_duplicate_email (deps : Deps) (dto : RegisterUserDto) (w : World) :
  email_taken (dto_email dto) (db w) ->
  register deps dto w
  = (Throw (BadRequestException "Email is already registered"), w).
Proof.
  intros Htaken. apply find_by_email_taken in Htaken. destruct Htaken as [u Hf].
  unfold register, bind, findOne. rewrite Hf. reflexivity.
Qed.

Lemma register_duplicate_email_witness :
  email_taken (dto_email alice_dto) (db alice_world)
  /\ register (stub_deps no_config) alice_dto alice_world
     = (Throw (BadRequestException "Email is already registered"), alice_world).
Proof.
  assert (H : email_taken (dto_email alice_dto) (db alice_world)).
  { exists alice. split; [left; reflexivity | reflexivity]. }
  split; [exact H | exact (register_duplicate_email _ _ _ H)].
Defined.

(** C3. A registration with a fresh email hashes the password with bcrypt at
    cost factor 10, appends exactly one row to the user table, and resolves
    to that stored row; the row carries the submitted email, name and wallet
    address, the digest as its password and the initial allocation of 1000
    tokens as its balance.  Since the digest bcrypt returned is not the
    plaintext, neither is the stored password. *)
Theorem register_fresh_email (deps : Deps) (dto : RegisterUserDto) (w : World) :
  email_unknown (dto_email dto) (db w) ->
  digest_is_not_plaintext deps (dto_password dto) 10 ->
  exists saved : User,
    register deps dto w = (Return saved, mkWorld (db w ++ [saved]) (trace w))
    /\ User.password saved = bcrypt_hash deps (dto_password dto) 10
    /\ User.token_balance saved = 1000
    /\ User.token_balance saved = INITIAL_TOKEN_ALLOCATION
    /\ User.email saved = dto_email dto
    /\ User.full_name saved = dto_full_name dto
    /\ User.wallet_address saved = dto_wallet_address dto
    /\ User.password saved <> dto_password dto.
Proof.
  intros Hfresh Hdigest. apply find_by_email_unknown in Hfresh.
  unfold register, bind, findOne, ret, save, create. rewrite Hfresh. simpl.
  eexists. split; [reflexivity|]. simpl. repeat split; assumption.
Qed.

Lemma register_fresh_email_witness :
  exists saved : User,
    register (stub_deps no_config) alice_dto empty_world
    = (Return saved, mkWorld (db empty_world ++ [saved]) (trace empty_world))
    /\ User.password saved = "$2b$10$secret"
    /\ User.token_balance saved = 1000
    /\ User.password saved <> "secret".
Proof.
  assert (Hfresh : email_unknown (dto_email alice_dto) (db empty_world)).
  { intros u Hin. destruct Hin. }
  assert (Hdigest : digest_is_not_plaintext (stub_deps no_config)
                      (dto_password alice_dto) 10).
  { unfold digest_is_not_plaintext. simpl. discriminate. }
  destruct (register_fresh_email (stub_deps no_config) alice_dto empty_world
              Hfresh Hdigest)
    as [saved [Hrun [Hpw [Hbal [_ [_ [_ [_ Hne]]]]]]]].
  exists saved. repeat split; assumption.
Defined.

(** The table invariant survives a registration, whichever way it ends. *)
Lemma register_keeps_emails_unique (deps : Deps) (dto : RegisterUserDto) (w : World) :
  emails_unique (db w) -> emails_unique (db (snd (register deps dto w))).
Proof.
  intros Hu. unfold register, bind, findOne, ret, save, create.
  destruct (find_by_email (dto_email dto) (db w)) as [u|] eqn:Hf; simpl.
  - exact Hu.
  - unfold emails_unique in *. rewrite map_app. simpl.
    apply NoDup_app; [assumption | constructor; [intros []|constructor] | ].
    intros e Hin [Heq|[]]. subst e.
    apply in_map_iff in Hin. destruct Hin as [u [Heq Hin]].
    unfold find_by_email in Hf.
    pose proof (find_none _ _ Hf u Hin) as Hn. simpl in Hn.
    apply String.eqb_neq in Hn. contradiction.
Qed.

(** ** validateUser *)

(** What one call computes: a lookup, then at most one comparison. *)
Lemma validateUser_run (deps : Deps) (e pw : string) (w : World) :
  validateUser deps e pw w
  = (Return (match find_by_email e (db w) with
             | Some u => if bcrypt_compare deps pw (User.password u)
                         then Some u else None
             | None => None
             end), w).
Proof.
  unfold validateUser, bind, findOne, ret.
  destruct (find_by_email e (db w)) as [u|]; [|reflexivity].
  destruct (bcrypt_compare deps pw (User.password u)); reflexivity.
Qed.

(** C4. [validateUser] resolves to no match, without throwing, when no row
    has the email and when the bcrypt comparison against the row's digest
    fails; it resolves to the stored row when the comparison succeeds; and
    in every case it leaves the world, hence the user table, untouched. *)
Theorem validateUser_spec (deps : Deps) (e pw : string) (w : World) :
  snd (validateUser deps e pw w) = w
  /\ (email_unknown e (db w) -> fst (validateUser deps e pw w) = Return None)
  /\ (forall u, find_by_email e (db w) = Some u ->
        bcrypt_compare deps pw (User.password u) = false ->
        fst (validateUser deps e pw w) = Return None)
  /\ (forall u, find_by_email e (db w) = Some u ->
        bcrypt_compare deps pw (User.password u) = true ->
        fst (validateUser deps e pw w) = Return (Some u)).
Proof.
  rewrite validateUser_run. simpl. repeat split.
  - intros Hu. now rewrite (find_by_email_unknown _ _ Hu).
  - intros u Hf Hc. now rewrite Hf, Hc.
  - intros u Hf Hc. now rewrite Hf, Hc.
Qed.

Lemma validateUser_spec_witness :
  snd (validateUser (stub_deps no_config) "a@x.com" "secret" alice_world) = alice_world
  /\ fst (validateUser (stub_deps no_config) "b@x.com" "secret" alice_world) = Return None
  /\ fst (validateUser (stub_deps no_config) "a@x.com" "wrong" alice_world) = Return None
  /\ fst (validateUser (stub_deps no_config) "a@x.com" "secret" alice_world)
     = Return (Some alice).
Proof.
  split; [exact (proj1 (validateUser_spec _ "a@x.com" "secret" alice_world))|].
  split.
  { apply (proj1 (proj2 (validateUser_spec _ "b@x.com" "secret" alice_world))).
    intros u [<-|[]]. discriminate. }
  split.
  { apply (proj1 (proj2 (proj2 (validateUser_spec _ "a@x.com" "wrong" alice_world)))
             alice); reflexivity. }
  apply (proj2 (proj2 (proj2 (validateUser_spec _ "a@x.com" "secret" alice_world)))
           alice); reflexivity.
Defined.

(** X8. With the table invariant, the row found is the one row with that email. *)
Lemma validateUser_stored_user (deps : Deps) (pw : string) (w : World) (u : User) :
  emails_unique (db w) -> In u (db w) ->
  bcrypt_compare deps pw (User.password u) = true ->
  validateUser deps (User.email u) pw w = (Return (Some u), w).
Proof.
  intros Hu Hin Hc. rewrite validateUser_run.
  now rewrite (find_by_email_unique _ Hu u Hin), Hc.
Qed.

(** ** login *)

(** The whole response of a successful login, computed. *)
Lemma login_run_valid (deps : Deps) (e pw : string) (w : World) (u : User) :
  valid_credentials deps e pw w u ->
  login deps e pw w
  = (Return (JsObject
       [ ("status", JsString "success");
         ("message", JsString "Login successful");
         ("data", JsObject
           [ ("user", JsObject
               [ ("id", JsNumber (User.id u));
                 ("full_name", JsString (User.full_name u));
                 ("email", JsString (User.email u));
                 ("is_active", JsBool (User.is_active u));
                 ("is_verified", JsBool (User.is_verified u));
                 ("token_balance", JsNumber (User.token_balance u));
                 ("created_at", JsDate (User.created_at u));
                 ("updated_at", JsDate (User.updated_at u));
                 ("last_login_at", JsDate (clock_response deps)) ]);
             ("access_token",
               JsJwt (mkToken (User.email u) (User.id u)
                        (clock_access deps / 1000)
                        (clock_access deps / 1000 + 3600)));
             ("refresh_token",
               JsJwt (mkToken (User.email u) (User.id u)
                        (clock_refresh deps / 1000)
                        (clock_refresh deps / 1000 + 604800))) ]) ]), w).
Proof.
  intros [Hf Hc]. unfold login. unfold bind at 1.
  rewrite validateUser_run, Hf, Hc. reflexivity.
Qed.

Lemma login_run_invalid (deps : Deps) (e pw : string) (w : World) :
  unknown_email e w \/ wrong_password deps e pw w ->
  login deps e pw w = (Throw (UnauthorizedException "Invalid credentials"), w).
Proof.
  intros H. unfold login. unfold bind at 1. rewrite validateUser_run.
  destruct H as [Hu | [u [Hf Hc]]].
  - now rewrite (find_by_email_unknown _ _ Hu).
  - now rewrite Hf, Hc.
Qed.

Lemma alice_valid :
  valid_credentials (stub_deps no_config) "a@x.com" "secret" alice_world alice.
Proof. split; reflexivity. Qed.



(** C6. A login with an unknown email or with a wrong password throws the
    authorization error 'Invalid credentials', which is not a validation
    error; the world is left as found; and any two rejected logins, for
    whichever of the two reasons, end in the same exception, so the outcome
    does not tell which field was wrong. *)
Theorem login_invalid_credentials (deps : Deps) (e pw : string) (w : World) :
  unknown_email e w \/ wrong_password deps e pw w ->
  login deps e pw w = (Throw (UnauthorizedException "Invalid credentials"), w)
  /\ (forall m, fst (login deps e pw w) <> Throw (BadRequestException m))
  /\ (forall e' pw' w',
        unknown_email e' w' \/ wrong_password deps e' pw' w' ->
        fst (login deps e' pw' w') = fst (login deps e pw w)).
Proof.
  intros H. rewrite (login_run_invalid _ _ _ _ H). split; [reflexivity|].
  split.
  - intros m. simpl. discriminate.
  - intros e' pw' w' H'. now rewrite (login_run_invalid _ _ _ _ H').
Qed.

Lemma login_invalid_credentials_witness :
  login (stub_deps no_config) "a@x.com" "wrong" alice_world
  = (Throw (UnauthorizedException "Invalid credentials"), alice_world)
  /\ fst (login (stub_deps no_config) "b@x.com" "secret" alice_world)
     = fst (login (stub_deps no_config) "a@x.com" "wrong" alice_world).
Proof.
  assert (Hwrong : unknown_email "a@x.com" alice_world
                   \/ wrong_password (stub_deps no_config) "a@x.com" "wrong" alice_world).
  { right. exists alice. split; reflexivity. }
  assert (Hunknown : unknown_email "b@x.com" alice_world
                     \/ wrong_password (stub_deps no_config) "b@x.com" "secret" alice_world).
  { left. intros u [<-|[]]. discriminate. }
  destruct (login_invalid_credentials (stub_deps no_config) "a@x.com" "wrong"
              alice_world Hwrong) as [Hrun [_ Hsame]].
  split; [exact Hrun | exact (Hsame _ _ _ Hunknown)].
Defined.

(** C9. A successful login writes nothing back: the world after the call is
    the world before it, so the stored row, its last-login column included,
    is the same, and the [last_login_at] of the payload is the clock reading
    taken when the response is built, whatever the row holds. *)
Theorem login_no_write_back (deps : Deps) (e pw : string) (w : World) (u : User) :
  valid_credentials deps e pw w u ->
  snd (login deps e pw w) = w
  /\ find_by_email e (db (snd (login deps e pw w))) = Some u
  /\ exists payload,
       fst (login deps e pw w) = Return payload
       /\ js_path ["data"; "user"; "last_login_at"] payload
          = Some (JsDate (clock_response deps)).
Proof.
  intros Hvalid. rewrite (login_run_valid _ _ _ _ _ Hvalid). simpl.
  split; [reflexivity|]. split; [exact (proj1 Hvalid)|].
  eexists. split; reflexivity.
Qed.

Lemma login_no_write_back_witness :
  snd (login (stub_deps no_config) "a@x.com" "secret" alice_world) = alice_world
  /\ User.last_login_at alice = None
  /\ exists payload,
       fst (login (stub_deps no_config) "a@x.com" "secret" alice_world) = Return payload
       /\ js_path ["data"; "user"; "last_login_at"] payload
          = Some (JsDate 1700000100003).
Proof.
  destruct (login_no_write_back (stub_deps no_config) "a@x.com" "secret"
              alice_world alice alice_valid) as [Hw [_ Hp]].
  split; [exact Hw|]. split; [reflexivity | exact Hp].
Defined.

(** C10. The user object of a successful login has exactly the properties
    id, full_name, email, is_active, is_verified, token_balance, created_at,
    updated_at and last_login_at, in that order; neither the wallet address
    nor the password digest is among them. *)
Theorem login_public_projection (deps : Deps) (e pw : string) (w : World) (u : User) :
  valid_credentials deps e pw w u ->
  exists payload projection,
    fst (login deps e pw w) = Return payload
    /\ js_path ["data"; "user"] payload = Some projection
    /\ js_keys projection
       = ["id"; "full_name"; "email"; "is_active"; "is_verified";
          "token_balance"; "created_at"; "updated_at"; "last_login_at"]
    /\ js_get "wallet_address" projection = None
    /\ js_get "password" projection = None.
Proof.
  intros Hvalid. rewrite (login_run_valid _ _ _ _ _ Hvalid).
  do 2 eexists. simpl. repeat split.
Qed.

Lemma login_public_projection_witness :
  exists payload projection,
    fst (login (stub_deps no_config) "a@x.com" "secret" alice_world) = Return payload
    /\ js_path ["data"; "user"] payload = Some projection
    /\ length (js_keys projection) = 9%nat
    /\ js_get "wallet_address" projection = None.
Proof.
  destruct (login_public_projection (stub_deps no_config) "a@x.com" "secret"
              alice_world alice alice_valid)
    as [payload [projection [H1 [H2 [H3 [H4 _]]]]]].
  exists payload, projection. repeat split; try assumption.
  now rewrite H3.
Defined.

(** ** allocateTokensToWallet *)

Lemma malformed_key_invalid (k : option string) :
  malformed_key k -> invalid_private_key k = true.
Proof.
  intros [-> | [s [-> [Hp | Hl]]]]; [reflexivity | |]; simpl.
  - rewrite Hp. simpl. now rewrite orb_true_r.
  - apply Nat.eqb_neq in Hl. rewrite Hl. simpl. now rewrite orb_true_r.
Qed.

(** C8. Whatever throws inside the method is caught, logged once with
    [console.error], and replaced by the one exception 'Failed to allocate
    tokens to the wallet'.  This holds of each step by itself: when a web3
    call of the run (provider, key derivation, wallet, contract, encoding,
    gas estimation, signing, broadcasting) throws, that call is the last
    one made, its exception is logged right after it, and the method throws
    the generic exception; the same when the key check rejects the key.
    The method either returns or throws exactly that exception, it throws
    it only with the cause logged last, so the cause never reaches the
    caller, and no web3 operation is called twice in a run, so nothing is
    retried. *)
Theorem allocate_failures_collapse (deps : Deps) (walletAddress : string) (amount : Z)
    (w : World) :
  (forall cause w',
      allocate_try deps walletAddress amount w = (Throw cause, w') ->
      allocateTokensToWallet deps walletAddress amount w
      = (Throw ALLOCATION_FAILED,
         mkWorld (db w') (trace w' ++ [EvConsoleError cause])))
  /\ (fst (allocateTokensToWallet deps walletAddress amount w) = Return tt
      \/ fst (allocateTokensToWallet deps walletAddress amount w)
         = Throw ALLOCATION_FAILED)
  /\ exists new,
       trace (snd (allocateTokensToWallet deps walletAddress amount w))
       = (trace w ++ new)%list
       /\ NoDup (web3_operations new)
       /\ (length (filter is_console_error new) <= 1)%nat
       /\ (forall ev cause,
             In ev new -> thrown_by deps ev = Some cause ->
             fst (allocateTokensToWallet deps walletAddress amount w)
             = Throw ALLOCATION_FAILED
             /\ exists before, new = (before ++ [ev; EvConsoleError cause])%list)
       /\ (forall key,
             In (EvPrivateKeyToAccount key) new ->
             thrown_by deps (EvPrivateKeyToAccount key) = None ->
             invalid_private_key key = true ->
             fst (allocateTokensToWallet deps walletAddress amount w)
             = Throw ALLOCATION_FAILED
             /\ exists before,
                  new = (before ++ [ EvPrivateKeyToAccount key;
                                     EvConsoleError (JsError "Invalid private key format") ])%list)
       /\ (fst (allocateTokensToWallet deps walletAddress amount w)
           = Throw ALLOCATION_FAILED ->
           exists cause before, new = (before ++ [EvConsoleError cause])%list)
       /\ (fst (allocateTokensToWallet deps walletAddress amount w) = Return tt ->
           forall ev, In ev new -> is_console_error ev = false).
Proof.
  split; [|split].
  - intros cause w' Hthrow.
    unfold allocateTokensToWallet, try_catch. rewrite Hthrow. reflexivity.
  - unfold_run. repeat next_answer; auto.
  - unfold_run. repeat next_answer; new_events;
      (split; [list_facts|]); (split; [list_facts|]);
      (split; [throwing_call|]); (split; [rejected_key|]);
      (split; [logged_last | never_logged]).
Qed.

Lemma allocate_failures_collapse_witness :
  allocate_try (stub_deps_rpc (env_with_key good_key) rpc_down)
    "0xRecipient" 1000 empty_world
  = (Throw (JsError "connect ECONNREFUSED"), rpc_down_world)
  /\ allocateTokensToWallet (stub_deps_rpc (env_with_key good_key) rpc_down)
       "0xRecipient" 1000 empty_world
     = (Throw ALLOCATION_FAILED,
        mkWorld (db rpc_down_world)
          (trace rpc_down_world ++ [EvConsoleError (JsError "connect ECONNREFUSED")])).
Proof.
  assert (Hthrow :
    allocate_try (stub_deps_rpc (env_with_key good_key) rpc_down)
      "0xRecipient" 1000 empty_world
    = (Throw (JsError "connect ECONNREFUSED"), rpc_down_world))
    by (vm_compute; reflexivity).
  split; [exact Hthrow|].
  exact (proj1 (allocate_failures_collapse
                  (stub_deps_rpc (env_with_key good_key) rpc_down)
                  "0xRecipient" 1000 empty_world) _ _ Hthrow).
Defined.

(** The same collapse when the signer throws and when the broadcast
    throws: the call that threw is the last one made. *)
Example allocate_signer_down :
  allocateTokensToWallet
    (stub_deps_node (env_with_key good_key) signer_down broadcast_reverted)
    "0xRecipient" 1000 empty_world
  = (Throw ALLOCATION_FAILED,
     mkWorld []
       (trace rpc_down_world
        ++ [ EvSignTransaction
               (Eip1559Tx "0xSender" (Some "0xToken") 52000 2000000000 100000000000
                          "0xa9059cbb0xRecipient")
               (Some good_key);
             EvConsoleError (JsError "nonce lookup failed") ])).
Proof. vm_compute. reflexivity. Qed.

Example allocate_broadcast_reverted :
  allocateTokensToWallet
    (stub_deps_node (env_with_key good_key) signer_ok broadcast_reverted)
    "0xRecipient" 1000 empty_world
  = (Throw ALLOCATION_FAILED,
     mkWorld []
       (trace rpc_down_world
        ++ [ EvSignTransaction
               (Eip1559Tx "0xSender" (Some "0xToken") 52000 2000000000 100000000000
                          "0xa9059cbb0xRecipient")
               (Some good_key);
             EvSendSignedTransaction "0x02f8";
             EvConsoleError (JsError "Transaction has been reverted by the EVM") ])).
Proof. vm_compute. reflexivity. Qed.

Example allocate_happy_path :
  allocateTokensToWallet (stub_deps (env_with_key good_key))
    "0xRecipient" 1000 empty_world
  = (Return tt,
     mkWorld []
       [ EvConfigGet "NETWORK"; EvConfigGet "INFURA_API_KEY";
         EvNewHttpProvider "https://sepolia.infura.io/v3/abc123";
         EvConfigGet "PRIVATE_KEY"; EvPrivateKeyToAccount (Some good_key);
         EvWalletAdd (mkAccount "0xSender");
         EvConfigGet "CONTRACT_ADDRESS"; EvNewContract (Some "0xToken");
         EvEncodeTransfer "0xRecipient" 1000000000000000000000;
         EvEstimateGas (mkCall "0xSender" (Some "0xToken") "0xa9059cbb0xRecipient");
         EvSignTransaction
           (Eip1559Tx "0xSender" (Some "0xToken") 52000 2000000000 100000000000
                      "0xa9059cbb0xRecipient")
           (Some good_key);
         EvSendSignedTransaction "0x02f8";
         EvConsoleLog (mkReceipt "0xbeef") ]).
Proof. vm_compute. reflexivity. Qed.

(** C7. The fee-model flag is the constant [true]: in every run, a
    transaction handed to the signer is an EIP-1559 transaction whose gas is
    the estimate the node returned for the same sender, contract and call
    data, whose priority fee is 2 gwei and whose maximum fee is 100 gwei;
    [getGasPrice], the one call of the legacy branch, is never made. *)
Theorem fee_model_is_eip1559 (deps : Deps) (walletAddress : string) (amount : Z)
    (w : World) :
  exists new,
    trace (snd (allocateTokensToWallet deps walletAddress amount w))
    = (trace w ++ new)%list
    /\ ~ In EvGetGasPrice new
    /\ forall tx key,
         In (EvSignTransaction tx key) new ->
         exists from to gas data,
           tx = Eip1559Tx from to gas (toWei 2 gwei) (toWei 100 gwei) data
           /\ toWei 2 gwei = 2000000000
           /\ toWei 100 gwei = 100000000000
           /\ In (EvEstimateGas (mkCall from to data)) new
           /\ web3_estimateGas deps (mkCall from to data) = Return gas.
Proof.
  unfold_run. repeat next_answer; new_events;
    (split; [simpl; intuition discriminate|]);
    intros tx key Hin; simpl in Hin;
    repeat (destruct Hin as [Hin|Hin]; try discriminate Hin);
    try contradiction;
    injection Hin as <- <-;
    do 4 eexists; (split; [reflexivity|]);
    repeat (split; [reflexivity|]);
    (split; [simpl; tauto | eassumption]).
Qed.

(** C1, as the code has it.  When the configured private key is absent,
    lacks the hex prefix or is not 66 characters long, the method throws,
    and what the caller receives is the generic 'Failed to allocate tokens
    to the wallet'; the cause is written to the error log only.  Nothing
    goes over the network in such a run: it ends before gas estimation,
    and neither signing nor broadcasting is reached. *)
Theorem malformed_key_fails_before_network (deps : Deps) (walletAddress : string)
    (amount : Z) (w : World) :
  malformed_key (config deps "PRIVATE_KEY") ->
  exists cause events,
    allocateTokensToWallet deps walletAddress amount w
    = (Throw ALLOCATION_FAILED,
       mkWorld (db w) (trace w ++ events ++ [EvConsoleError cause]))
    /\ Forall (fun ev => is_network_call ev = false) events
    /\ Forall (fun ev => web3_operation ev <> Some "signTransaction") events.
Proof.
  intros Hbad. apply malformed_key_invalid in Hbad.
  unfold_run. rewrite Hbad.
  repeat next_answer; rewrite <- ?app_assoc; simpl;
    match goal with
    | |- exists _ _, (_, {| db := _; trace := (_ ++ ?l)%list |}) = _ /\ _ =>
        let c := eval simpl in
          (match last l (EvConfigGet "") with
           | EvConsoleError e => e
           | _ => JsError ""
           end) in
        let evs := eval simpl in (removelast l) in
        exists c, evs
    end;
    (split; [reflexivity|]);
    split; repeat constructor; simpl; discriminate.
Qed.

Lemma malformed_key_fails_before_network_witness :
  malformed_key (config (stub_deps (env_with_key bare_key)) "PRIVATE_KEY")
  /\ exists cause events,
       allocateTokensToWallet (stub_deps (env_with_key bare_key))
         "0xRecipient" 1000 empty_world
       = (Throw ALLOCATION_FAILED,
          mkWorld (db empty_world)
            (trace empty_world ++ events ++ [EvConsoleError cause]))
       /\ Forall (fun ev => is_network_call ev = false) events
       /\ Forall (fun ev => web3_operation ev <> Some "signTransaction") events.
Proof.
  assert (Hbad : malformed_key (config (stub_deps (env_with_key bare_key)) "PRIVATE_KEY")).
  { right. exists bare_key. split; [reflexivity | left; reflexivity]. }
  split; [exact Hbad|].
  exact (malformed_key_fails_before_network (stub_deps (env_with_key bare_key))
           "0xRecipient" 1000 empty_world Hbad).
Defined.

(** C1, as the specification words it, fails.  With a key of 64 hex digits
    and no prefix, the check inside the method throws 'Invalid private key
    format', yet the caller receives another exception, the generic
    'Failed to allocate tokens to the wallet', which is also what it
    receives when the key is well formed and the node is unreachable. *)
Lemma malformed_key_error_not_surfaced :
  malformed_key (config (stub_deps (env_with_key bare_key)) "PRIVATE_KEY")
  /\ fst (allocate_try (stub_deps (env_with_key bare_key))
            "0xRecipient" 1000 empty_world)
     = Throw (JsError "Invalid private key format")
  /\ fst (allocateTokensToWallet (stub_deps (env_with_key bare_key))
            "0xRecipient" 1000 empty_world)
     = Throw (BadRequestException "Failed to allocate tokens to the wallet")
  /\ fst (allocateTokensToWallet (stub_deps (env_with_key bare_key))
            "0xRecipient" 1000 empty_world)
     <> fst (allocate_try (stub_deps (env_with_key bare_key))
               "0xRecipient" 1000 empty_world)
  /\ fst (allocateTokensToWallet (stub_deps (env_with_key bare_key))
            "0xRecipient" 1000 empty_world)
     = fst (allocateTokensToWallet (stub_deps_rpc (env_with_key good_key) rpc_down)
              "0xRecipient" 1000 empty_world).
Proof.
  split.
  { right. exists bare_key. split; [reflexivity | left; reflexivity]. }
  split; [vm_compute; reflexivity|].
  split; [vm_compute; reflexivity|].
  split; [vm_compute; discriminate | vm_compute; reflexivity].
Qed.

(** * Further properties *)

(** ** register, beyond a single call *)

Lemma find_by_email_app e rows rows' :
  find_by_email e (rows ++ rows')
  = match find_by_email e rows with
    | Some u => Some u
    | None => find_by_email e rows'
    end.
Proof.
  unfold find_by_email. induction rows as [|r rows IH]; simpl; [reflexivity|].
  destruct (String.eqb (User.email r) e); [reflexivity | exact IH].
Qed.

(** The two ways a registration ends. *)
Lemma register_outcomes (deps : Deps) (dto : RegisterUserDto) (w : World) :
  (exists u, find_by_email (dto_email dto) (db w) = Some u
             /\ register deps dto w
                = (Throw (BadRequestException "Email is already registered"), w))
  \/ (exists saved,
        find_by_email (dto_email dto) (db w) = None
        /\ register deps dto w = (Return saved, mkWorld (db w ++ [saved]) (trace w))
        /\ User.email saved = dto_email dto
        /\ User.password saved = bcrypt_hash deps (dto_password dto) 10
        /\ User.token_balance saved = INITIAL_TOKEN_ALLOCATION).
Proof.
  unfold register, bind, findOne, ret, save, create.
  destruct (find_by_email (dto_email dto) (db w)) as [u|] eqn:Hf; simpl.
  - left. exists u. split; reflexivity.
  - right. eexists. split; [reflexivity|]. split; [reflexivity|].
    simpl. repeat split.
Qed.

(** X1. The wallet funder is not called from [register]: whatever the request,
    a wallet address included, a registration makes no outside call (no
    configuration read, no web3 operation, nothing logged), keeps the rows
    it found, in their order, and adds at most one row after them. *)
Theorem register_makes_no_outside_call (deps : Deps) (dto : RegisterUserDto) (w : World) :
  trace (snd (register deps dto w)) = trace w
  /\ exists rows,
       db (snd (register deps dto w)) = (db w ++ rows)%list
       /\ (length rows <= 1)%nat.
Proof.
  destruct (register_outcomes deps dto w) as [[u [_ Hrun]] | [saved [_ [Hrun _]]]];
    rewrite Hrun; simpl; (split; [reflexivity|]).
  - exists []. split; [now rewrite app_nil_r | simpl; lia].
  - exists [saved]. split; [reflexivity | simpl; lia].
Qed.

(** X2. Once [register] has been called for an email, that email is in the
    table, whether the call stored a row or threw: a lookup by it finds a
    row carrying it, and a row that was already found before is still the
    one found. *)
Theorem register_makes_email_taken (deps : Deps) (dto : RegisterUserDto) (w : World) :
  exists u,
    find_by_email (dto_email dto) (db (snd (register deps dto w))) = Some u
    /\ User.email u = dto_email dto
    /\ (forall u0, find_by_email (dto_email dto) (db w) = Some u0 -> u = u0).
Proof.
  destruct (register_outcomes deps dto w)
    as [[u [Hf Hrun]] | [saved [Hf [Hrun [Hemail _]]]]]; rewrite Hrun; simpl.
  - exists u. split; [exact Hf|]. split.
    + now apply find_by_email_some in Hf.
    + intros u0 Hf0. congruence.
  - exists saved. rewrite find_by_email_app, Hf. unfold find_by_email. simpl.
    rewrite Hemail, String.eqb_refl. split; [reflexivity|].
    split; [reflexivity | discriminate].
Qed.

(** X3. A registration does not change what a lookup by any other email
    finds. *)
Theorem register_keeps_other_lookups (deps : Deps) (dto : RegisterUserDto) (w : World)
    (e : string) :
  e <> dto_email dto ->
  find_by_email e (db (snd (register deps dto w))) = find_by_email e (db w).
Proof.
  intros Hne.
  destruct (register_outcomes deps dto w)
    as [[u [_ Hrun]] | [saved [_ [Hrun [Hemail _]]]]]; rewrite Hrun; simpl.
  - reflexivity.
  - rewrite find_by_email_app.
    destruct (find_by_email e (db w)); [reflexivity|].
    unfold find_by_email. simpl. rewrite Hemail.
    destruct (String.eqb_spec (dto_email dto) e) as [Heq|_]; [|reflexivity].
    exfalso. apply Hne. now symmetry.
Qed.

Lemma register_keeps_other_lookups_witness :
  "a@x.com" <> dto_email bob_dto
  /\ find_by_email "a@x.com"
       (db (snd (register (stub_deps no_config) bob_dto alice_world)))
     = Some alice.
Proof.
  assert (Hne : "a@x.com" <> dto_email bob_dto) by (simpl; discriminate).
  split; [exact Hne|].
  rewrite (register_keeps_other_lookups (stub_deps no_config) bob_dto alice_world
             "a@x.com" Hne).
  reflexivity.
Defined.

(** X4. Registering an email that was free and then registering the same email
    again, with whatever password, name or wallet address: the first call
    stores one row, the second throws 'Email is already registered' and
    leaves the table as the first call left it. *)
Theorem register_same_email_twice (deps : Deps) (first second : RegisterUserDto)
    (w : World) :
  email_unknown (dto_email first) (db w) ->
  dto_email second = dto_email first ->
  exists saved,
    register deps first w = (Return saved, mkWorld (db w ++ [saved]) (trace w))
    /\ register deps second (mkWorld (db w ++ [saved]) (trace w))
       = (Throw (BadRequestException "Email is already registered"),
          mkWorld (db w ++ [saved]) (trace w)).
Proof.
  intros Hfresh Hsame. apply find_by_email_unknown in Hfresh.
  destruct (register_outcomes deps first w)
    as [[u [Hf _]] | [saved [_ [Hrun [Hemail _]]]]]; [congruence|].
  exists saved. split; [exact Hrun|].
  destruct (register_outcomes deps second (mkWorld (db w ++ [saved]) (trace w)))
    as [[u [_ Hrun2]] | [saved2 [Hf2 _]]]; [exact Hrun2|].
  exfalso. simpl in Hf2. rewrite find_by_email_app, Hsame, Hfresh in Hf2.
  unfold find_by_email in Hf2. simpl in Hf2.
  rewrite Hemail, String.eqb_refl in Hf2. discriminate.
Qed.

Lemma register_same_email_twice_witness :
  exists saved,
    register (stub_deps no_config) alice_dto empty_world
    = (Return saved, mkWorld (db empty_world ++ [saved]) (trace empty_world))
    /\ register (stub_deps no_config) (mkDto "a@x.com" "other" "Mallory" (Some "0xM"))
         (mkWorld (db empty_world ++ [saved]) (trace empty_world))
       = (Throw (BadRequestException "Email is already registered"),
          mkWorld (db empty_world ++ [saved]) (trace empty_world)).
Proof.
  apply (register_same_email_twice (stub_deps no_config) alice_dto
           (mkDto "a@x.com" "other" "Mallory" (Some "0xM")) empty_world).
  - intros u Hin. destruct Hin.
  - reflexivity.
Defined.

Lemma register_extends_table (deps : Deps) (dto : RegisterUserDto) (w : World) :
  exists rows,
    db (snd (register deps dto w)) = (db w ++ rows)%list
    /\ (length rows <= 1)%nat
    /\ Forall (fun u => User.token_balance u = INITIAL_TOKEN_ALLOCATION) rows
    /\ email_taken (dto_email dto) (db w ++ rows).
Proof.
  destruct (register_outcomes deps dto w)
    as [[u [Hf Hrun]] | [saved [_ [Hrun [Hemail [_ Hbal]]]]]]; rewrite Hrun; simpl.
  - exists []. rewrite app_nil_r. repeat split; [simpl; lia | constructor |].
    apply find_by_email_some in Hf. now exists u.
  - exists [saved]. repeat split; [simpl; lia | now repeat constructor |].
    exists saved. split; [apply in_or_app; right; now left | exact Hemail].
Qed.

Lemma email_taken_app e rows rows' :
  email_taken e rows -> email_taken e (rows ++ rows').
Proof.
  intros [u [Hin He]]. exists u. split; [apply in_or_app; now left | exact He].
Qed.

(** X5. Registration requests served one at a time, each call of [register]
    running to completion before the next one starts, keep what holds of the
    table: no two rows share an email, every balance is the initial
    allocation, each request adds at most one row, and at the end every
    requested email is in the table.  Requests that overlap are outside
    this statement. *)
Theorem registrations_keep_table_invariants (deps : Deps)
    (dtos : list RegisterUserDto) (w : World) :
  emails_unique (db w) ->
  Forall (fun u => User.token_balance u = INITIAL_TOKEN_ALLOCATION) (db w) ->
  emails_unique (db (register_all deps dtos w))
  /\ Forall (fun u => User.token_balance u = INITIAL_TOKEN_ALLOCATION)
            (db (register_all deps dtos w))
  /\ (length (db (register_all deps dtos w)) <= length (db w) + length dtos)%nat
  /\ (forall dto, In dto dtos ->
        email_taken (dto_email dto) (db (register_all deps dtos w))).
Proof.
  revert w. induction dtos as [|dto rest IH]; intros w Huniq Hbal; simpl.
  - repeat split; [assumption | assumption | lia | intros dto []].
  - pose proof (register_keeps_emails_unique deps dto w Huniq) as Huniq'.
    destruct (register_extends_table deps dto w) as [rows [Hdb [Hlen [Hrows Htaken]]]].
    assert (Hbal' : Forall (fun u => User.token_balance u = INITIAL_TOKEN_ALLOCATION)
                           (db (snd (register deps dto w)))).
    { rewrite Hdb. apply Forall_app. now split. }
    destruct (IH _ Huniq' Hbal') as [H1 [H2 [H3 H4]]].
    repeat split; [exact H1 | exact H2 | |].
    + rewrite Hdb, length_app in H3. lia.
    + intros d [<-|Hin]; [|now apply H4].
      rewrite <- Hdb in Htaken. clear - Htaken.
      generalize dependent (snd (register deps dto w)). intros w1 Htaken.
      revert w1 Htaken. induction rest as [|d rest IH]; intros w1 Htaken; simpl.
      * exact Htaken.
      * apply IH.
        destruct (register_extends_table deps d w1) as [rows [Hdb _]].
        rewrite Hdb. now apply email_taken_app.
Qed.

Lemma registrations_keep_table_invariants_witness :
  emails_unique
    (db (register_all (stub_deps no_config) [alice_dto; bob_dto; alice_dto] empty_world))
  /\ length
       (db (register_all (stub_deps no_config) [alice_dto; bob_dto; alice_dto] empty_world))
     = 2%nat.
Proof.
  assert (Huniq : emails_unique (db empty_world)) by constructor.
  assert (Hbal : Forall (fun u => User.token_balance u = INITIAL_TOKEN_ALLOCATION)
                        (db empty_world)) by constructor.
  split.
  - exact (proj1 (registrations_keep_table_invariants (stub_deps no_config)
                    [alice_dto; bob_dto; alice_dto] empty_world Huniq Hbal)).
  - reflexivity.
Defined.

(** ** register, then login *)

(** X6. A user who has just registered can log in: after a registration with a
    fresh email, and [bcrypt.compare] accepting the password against the
    digest [bcrypt.hash] made of it, a login with the same email and
    password succeeds; the payload shows the id of the stored row, the
    registered email and a balance of 1000, both tokens name that row, and
    the table is left as the registration left it. *)
Theorem register_then_login (deps : Deps) (dto : RegisterUserDto) (w : World) :
  email_unknown (dto_email dto) (db w) ->
  digest_is_accepted deps (dto_password dto) 10 ->
  exists saved payload access refresh,
    register deps dto w = (Return saved, mkWorld (db w ++ [saved]) (trace w))
    /\ login deps (dto_email dto) (dto_password dto)
         (mkWorld (db w ++ [saved]) (trace w))
       = (Return payload, mkWorld (db w ++ [saved]) (trace w))
    /\ js_path ["data"; "user"; "id"] payload = Some (JsNumber (User.id saved))
    /\ js_path ["data"; "user"; "email"] payload = Some (JsString (dto_email dto))
    /\ js_path ["data"; "user"; "token_balance"] payload = Some (JsNumber 1000)
    /\ js_path ["data"; "access_token"] payload = Some (JsJwt access)
    /\ js_path ["data"; "refresh_token"] payload = Some (JsJwt refresh)
    /\ (tk_email access, tk_sub access) = (dto_email dto, User.id saved)
    /\ (tk_email refresh, tk_sub refresh) = (dto_email dto, User.id saved).
Proof.
  intros Hfresh Hdigest. apply find_by_email_unknown in Hfresh.
  destruct (register_outcomes deps dto w)
    as [[u [Hf _]] | [saved [_ [Hrun [Hemail [Hpw Hbal]]]]]]; [congruence|].
  assert (Hvalid : valid_credentials deps (dto_email dto) (dto_password dto)
                     (mkWorld (db w ++ [saved]) (trace w)) saved).
  { split; simpl.
    - rewrite find_by_email_app, Hfresh. unfold find_by_email. simpl.
      now rewrite Hemail, String.eqb_refl.
    - rewrite Hpw. exact Hdigest. }
  exists saved. rewrite (login_run_valid _ _ _ _ _ Hvalid).
  do 3 eexists. split; [exact Hrun|]. split; [reflexivity|].
  simpl. rewrite Hemail, Hbal. repeat split.
Qed.

Lemma register_then_login_witness :
  exists saved payload,
    register (stub_deps no_config) bob_dto alice_world
    = (Return saved, mkWorld (db alice_world ++ [saved]) (trace alice_world))
    /\ login (stub_deps no_config) "b@x.com" "hunter2"
         (mkWorld (db alice_world ++ [saved]) (trace alice_world))
       = (Return payload, mkWorld (db alice_world ++ [saved]) (trace alice_world))
    /\ js_path ["data"; "user"; "token_balance"] payload = Some (JsNumber 1000).
Proof.
  assert (Hfresh : email_unknown (dto_email bob_dto) (db alice_world)).
  { intros u [<-|[]]. discriminate. }
  assert (Hdigest : digest_is_accepted (stub_deps no_config) (dto_password bob_dto) 10)
    by reflexivity.
  destruct (register_then_login (stub_deps no_config) bob_dto alice_world
              Hfresh Hdigest)
    as [saved [payload [access [refresh [H1 [H2 [_ [_ [H3 _]]]]]]]]].
  exists saved, payload. repeat split; assumption.
Defined.

(** ** validateUser and login, read backwards *)

(** X7. [validateUser] hands out a row only for credentials that check: a row it
    resolves to is a row of the table, carries the email asked for, and
    [bcrypt.compare] accepted the password against its digest. *)
Theorem validateUser_sound (deps : Deps) (e pw : string) (w : World) (u : User) :
  fst (validateUser deps e pw w) = Return (Some u) ->
  In u (db w)
  /\ User.email u = e
  /\ bcrypt_compare deps pw (User.password u) = true.
Proof.
  rewrite validateUser_run. simpl. intros H.
  destruct (find_by_email e (db w)) as [u'|] eqn:Hf; [|discriminate].
  destruct (bcrypt_compare deps pw (User.password u')) eqn:Hc; [|discriminate].
  injection H as ->. apply find_by_email_some in Hf. tauto.
Qed.

Lemma validateUser_sound_witness :
  fst (validateUser (stub_deps no_config) "a@x.com" "secret" alice_world)
  = Return (Some alice)
  /\ In alice (db alice_world)
  /\ User.email alice = "a@x.com"
  /\ bcrypt_compare (stub_deps no_config) "secret" (User.password alice) = true.
Proof.
  assert (H : fst (validateUser (stub_deps no_config) "a@x.com" "secret" alice_world)
              = Return (Some alice)) by reflexivity.
  split; [exact H|].
  exact (validateUser_sound (stub_deps no_config) "a@x.com" "secret" alice_world
           alice H).
Defined.

(** X9. [login] hands out tokens only for credentials that check: when it
    resolves, the row looked up by the email carries a digest the password
    compares equal to, both tokens of the payload carry that row's email and
    id, and the world is left as it was found. *)
Theorem login_resolves_only_for_valid_credentials (deps : Deps) (e pw : string)
    (w : World) (payload : JsValue) :
  fst (login deps e pw w) = Return payload ->
  snd (login deps e pw w) = w
  /\ exists u access refresh,
       valid_credentials deps e pw w u
       /\ In u (db w)
       /\ js_path ["data"; "access_token"] payload = Some (JsJwt access)
       /\ js_path ["data"; "refresh_token"] payload = Some (JsJwt refresh)
       /\ (tk_email access, tk_sub access) = (User.email u, User.id u)
       /\ (tk_email refresh, tk_sub refresh) = (User.email u, User.id u).
Proof.
  destruct (find_by_email e (db w)) as [u|] eqn:Hf.
  - destruct (bcrypt_compare deps pw (User.password u)) eqn:Hc.
    + assert (Hvalid : valid_credentials deps e pw w u) by (split; assumption).
      rewrite (login_run_valid _ _ _ _ _ Hvalid). simpl. intros Hrun.
      injection Hrun as <-. split; [reflexivity|].
      exists u. do 2 eexists. split; [exact Hvalid|].
      split; [now apply find_by_email_some in Hf|].
      simpl. repeat split.
    + assert (Hbad : unknown_email e w \/ wrong_password deps e pw w).
      { right. exists u. split; assumption. }
      rewrite (login_run_invalid _ _ _ _ Hbad). discriminate.
  - assert (Hbad : unknown_email e w \/ wrong_password deps e pw w).
    { left. intros u Hin He.
      unfold find_by_email in Hf. pose proof (find_none _ _ Hf u Hin) as Hn.
      simpl in Hn. apply String.eqb_neq in Hn. contradiction. }
    rewrite (login_run_invalid _ _ _ _ Hbad). discriminate.
Qed.

Lemma login_resolves_only_for_valid_credentials_witness :
  exists payload u,
    fst (login (stub_deps no_config) "a@x.com" "secret" alice_world) = Return payload
    /\ valid_credentials (stub_deps no_config) "a@x.com" "secret" alice_world u
    /\ In u (db alice_world).
Proof.
  destruct (login (stub_deps no_config) "a@x.com" "secret" alice_world)
    as [[payload|exn] w'] eqn:Hrun; [|vm_compute in Hrun; discriminate Hrun].
  assert (Hfst : fst (login (stub_deps no_config) "a@x.com" "secret" alice_world)
                 = Return payload) by (rewrite Hrun; reflexivity).
  destruct (login_resolves_only_for_valid_credentials (stub_deps no_config)
              "a@x.com" "secret" alice_world payload Hfst)
    as [_ [u [access [refresh [Hvalid [Hin _]]]]]].
  exists payload, u. split; [reflexivity|]. split; assumption.
Defined.

(** ** The key check of the wallet funder *)

Lemma invalid_private_key_false (k : option string) :
  invalid_private_key k = false <-> well_formed_key k.
Proof.
  split.
  - destruct k as [s|]; simpl; [|discriminate]. intros H.
    apply orb_false_iff in H. destruct H as [H Hlen].
    apply orb_false_iff in H. destruct H as [_ Hpre].
    apply negb_false_iff in Hlen, Hpre. apply Nat.eqb_eq in Hlen.
    exists s. repeat split; assumption.
  - intros [s [-> [Hpre Hlen]]]. simpl. rewrite Hpre, Hlen. simpl.
    destruct s; [discriminate Hlen | reflexivity].
Qed.

(** X11. The check rejects exactly the keys that are absent, lack the '0x'
    prefix or are not 66 characters long; the empty string, rejected by
    the first test, is among the latter two. *)
Theorem invalid_private_key_iff_malformed (k : option string) :
  invalid_private_key k = true <-> malformed_key k.
Proof.
  split; [|apply malformed_key_invalid].
  destruct k as [s|]; simpl; [|intros _; now left]. intros H.
  right. exists s. split; [reflexivity|].
  apply orb_true_iff in H. destruct H as [H|Hlen].
  - apply orb_true_iff in H. destruct H as [Hempty|Hpre].
    + apply String.eqb_eq in Hempty. subst s. left. reflexivity.
    + left. now apply negb_true_iff in Hpre.
  - right. apply negb_true_iff in Hlen. now apply Nat.eqb_neq in Hlen.
Qed.

Lemma invalid_private_key_iff_malformed_witness :
  invalid_private_key (Some bare_key) = true
  /\ invalid_private_key (Some "") = true
  /\ malformed_key (Some "0x12").
Proof.
  split; [|split].
  - apply (proj2 (invalid_private_key_iff_malformed (Some bare_key))).
    right. exists bare_key. split; [reflexivity | left; reflexivity].
  - reflexivity.
  - apply (proj1 (invalid_private_key_iff_malformed (Some "0x12"))). reflexivity.
Defined.

(** ** Configuration of the wallet funder *)

(** X12. With [NETWORK] unset or set to the empty string, the provider is built
    for Sepolia: the first three calls of every run read the two settings
    and construct the provider for
    'https://sepolia.infura.io/v3/<INFURA_API_KEY>'. *)
Theorem network_defaults_to_sepolia (deps : Deps) (walletAddress : string)
    (amount : Z) (w : World) :
  config deps "NETWORK" = None \/ config deps "NETWORK" = Some "" ->
  exists rest,
    trace (snd (allocateTokensToWallet deps walletAddress amount w))
    = (trace w
       ++ [ EvConfigGet "NETWORK"; EvConfigGet "INFURA_API_KEY";
            EvNewHttpProvider
              ("https://sepolia.infura.io/v3/"
               ++ interpolate (config deps "INFURA_API_KEY")) ]
       ++ rest)%list.
Proof.
  intros Hnet. unfold_run.
  assert (Hor : js_or (config deps "NETWORK") "sepolia" = "sepolia")
    by (destruct Hnet as [-> | ->]; reflexivity).
  rewrite Hor. simpl.
  repeat next_answer; rewrite <- ?app_assoc; simpl; eexists; reflexivity.
Qed.

Lemma network_defaults_to_sepolia_witness :
  exists rest,
    trace (snd (allocateTokensToWallet (stub_deps no_config) "0xRecipient" 1000
                  empty_world))
    = ([ EvConfigGet "NETWORK"; EvConfigGet "INFURA_API_KEY";
         EvNewHttpProvider "https://sepolia.infura.io/v3/undefined" ]
       ++ rest)%list.
Proof.
  assert (Hnet : config (stub_deps no_config) "NETWORK" = None
                 \/ config (stub_deps no_config) "NETWORK" = Some "")
    by (left; reflexivity).
  exact (network_defaults_to_sepolia (stub_deps no_config) "0xRecipient" 1000
           empty_world Hnet).
Defined.

(** X13. A missing [INFURA_API_KEY] is not detected: the method goes on and
    constructs the provider for an endpoint whose last path segment is the
    text 'undefined'. *)
Theorem missing_api_key_is_not_detected (deps : Deps) (walletAddress : string)
    (amount : Z) (w : World) :
  config deps "INFURA_API_KEY" = None ->
  exists rest,
    trace (snd (allocateTokensToWallet deps walletAddress amount w))
    = (trace w
       ++ [ EvConfigGet "NETWORK"; EvConfigGet "INFURA_API_KEY";
            EvNewHttpProvider
              ("https://" ++ js_or (config deps "NETWORK") "sepolia"
               ++ ".infura.io/v3/undefined") ]
       ++ rest)%list.
Proof.
  intros Hkey. unfold_run. rewrite Hkey. simpl.
  repeat next_answer; rewrite <- ?app_assoc; simpl; eexists; reflexivity.
Qed.

Lemma missing_api_key_is_not_detected_witness :
  exists rest,
    trace (snd (allocateTokensToWallet (stub_deps no_config) "0xRecipient" 1000
                  empty_world))
    = ([ EvConfigGet "NETWORK"; EvConfigGet "INFURA_API_KEY";
         EvNewHttpProvider "https://sepolia.infura.io/v3/undefined" ]
       ++ rest)%list.
Proof.
  assert (Hkey : config (stub_deps no_config) "INFURA_API_KEY" = None)
    by reflexivity.
  exact (missing_api_key_is_not_detected (stub_deps no_config) "0xRecipient" 1000
           empty_world Hkey).
Defined.

(** ** Order and reach of the calls *)

(** X14. The account is derived from the key before the key is checked.  When
    the provider was constructed and key derivation throws, for a malformed
    key as for any other, the run ends there: the format check is not
    reached, what is logged is the exception of the library, and the caller
    gets the generic failure. *)
Theorem key_derivation_precedes_key_check (deps : Deps) (walletAddress : string)
    (amount : Z) (w : World) (cause : Exception) :
  web3_http_provider deps (provider_url deps) = Return tt ->
  web3_privateKeyToAccount deps (config deps "PRIVATE_KEY") = Throw cause ->
  allocateTokensToWallet deps walletAddress amount w
  = (Throw ALLOCATION_FAILED,
     mkWorld (db w)
       (trace w
        ++ [ EvConfigGet "NETWORK"; EvConfigGet "INFURA_API_KEY";
             EvNewHttpProvider (provider_url deps);
             EvConfigGet "PRIVATE_KEY";
             EvPrivateKeyToAccount (config deps "PRIVATE_KEY");
             EvConsoleError cause ])).
Proof.
  unfold provider_url. intros Hprov Hacct. unfold_run.
  simpl in Hprov. rewrite Hprov. simpl. rewrite Hacct. simpl.
  rewrite <- !app_assoc. reflexivity.
Qed.

Lemma key_derivation_precedes_key_check_witness :
  malformed_key (config (stub_deps no_config) "PRIVATE_KEY")
  /\ allocateTokensToWallet (stub_deps no_config) "0xRecipient" 1000 empty_world
     = (Throw ALLOCATION_FAILED,
        mkWorld []
          [ EvConfigGet "NETWORK"; EvConfigGet "INFURA_API_KEY";
            EvNewHttpProvider "https://sepolia.infura.io/v3/undefined";
            EvConfigGet "PRIVATE_KEY"; EvPrivateKeyToAccount None;
            EvConsoleError
              (JsError "Invalid Private Key, Not a valid string or uint8Array") ]).
Proof.
  split; [left; reflexivity|].
  apply (key_derivation_precedes_key_check (stub_deps no_config) "0xRecipient" 1000
           empty_world); reflexivity.
Defined.

(** X15. A run never writes to the user table, and it turns to the node in
    at most three calls, each made at most once and in this order: gas
    estimation, then signing (which has the node supply the nonce and
    chain id the transaction lacks), then broadcasting.  A later one is
    made only after the earlier ones. *)
Theorem allocate_network_calls (deps : Deps) (walletAddress : string) (amount : Z)
    (w : World) :
  db (snd (allocateTokensToWallet deps walletAddress amount w)) = db w
  /\ exists new,
       trace (snd (allocateTokensToWallet deps walletAddress amount w))
       = (trace w ++ new)%list
       /\ (filter is_network_call new = []
           \/ (exists req, filter is_network_call new = [EvEstimateGas req])
           \/ (exists req tx key,
                 filter is_network_call new
                 = [EvEstimateGas req; EvSignTransaction tx key])
           \/ (exists req tx key raw,
                 filter is_network_call new
                 = [ EvEstimateGas req; EvSignTransaction tx key;
                     EvSendSignedTransaction raw ])).
Proof.
  unfold_run. repeat next_answer; (split; [reflexivity|]); new_events; simpl;
    solve [ left; reflexivity
          | right; left; eexists; reflexivity
          | right; right; left; do 3 eexists; reflexivity
          | right; right; right; do 4 eexists; reflexivity ].
Qed.

(** X16. What is signed and what is broadcast.  A transaction is handed to the
    signer only with the configured key, which then passed the check; it is
    sent from the account derived from that key to the configured contract
    address, not to the wallet, and its call data is the encoding of a
    transfer of [amount] times 10^18 units to the wallet address.  What is
    broadcast is the raw transaction the signer returned for it. *)
Theorem signed_and_broadcast (deps : Deps) (walletAddress : string) (amount : Z)
    (w : World) :
  exists new,
    trace (snd (allocateTokensToWallet deps walletAddress amount w))
    = (trace w ++ new)%list
    /\ (forall tx key,
          In (EvSignTransaction tx key) new ->
          key = config deps "PRIVATE_KEY"
          /\ well_formed_key key
          /\ exists account data gas,
               tx = funding_tx deps account data gas
               /\ web3_privateKeyToAccount deps key = Return account
               /\ web3_encode_transfer deps walletAddress
                    (amount * 1000000000000000000) = Return data)
    /\ (forall raw,
          In (EvSendSignedTransaction raw) new ->
          exists tx signed,
            In (EvSignTransaction tx (config deps "PRIVATE_KEY")) new
            /\ web3_signTransaction deps tx (config deps "PRIVATE_KEY") = Return signed
            /\ raw = rawTransaction signed).
Proof.
  unfold_run. repeat next_answer; new_events; (split; [intros tx key Hin | intros raw Hin]);
    simpl in Hin;
    repeat (destruct Hin as [Hin|Hin]; try discriminate Hin);
    try contradiction.
  all: try (injection Hin as <- <-;
            split; [reflexivity|];
            split; [now apply invalid_private_key_false|];
            do 3 eexists; unfold funding_tx;
            split; [reflexivity|]; split; eassumption).
  all: injection Hin as <-; do 2 eexists;
       split; [simpl; do 10 right; left; reflexivity|];
       split; [eassumption | reflexivity].
Qed.

(** ** When funding goes through *)

(** X17. If the key is well formed and every web3 call answers, the method
    returns, having made exactly the thirteen calls of [funding_calls] in
    that order: one gas estimation, one signature, one broadcast, and the
    receipt logged last. *)
Theorem allocate_succeeds_when_every_call_answers (deps : Deps)
    (walletAddress : string) (amount : Z) (w : World)
    (account : Account) (data : string) (gas : Z)
    (signed : SignedTransaction) (receipt : Receipt) :
  well_formed_key (config deps "PRIVATE_KEY") ->
  every_call_answers deps walletAddress amount account data gas signed receipt ->
  allocateTokensToWallet deps walletAddress amount w
  = (Return tt,
     mkWorld (db w)
       (trace w
        ++ funding_calls deps walletAddress amount account data gas signed receipt)).
Proof.
  intros Hkey (Hprov & Hacct & Hadd & Hcontract & Hdata & Hgas & Hsign & Hsend).
  apply invalid_private_key_false in Hkey.
  unfold provider_url, funding_tx in *. unfold funding_calls, provider_url, funding_tx.
  unfold_run. simpl in Hprov, Hdata, Hsign.
  rewrite Hprov; simpl. rewrite Hacct; simpl. rewrite Hkey; simpl.
  rewrite Hadd; simpl. rewrite Hcontract; simpl. rewrite Hdata; simpl.
  rewrite Hgas; simpl. rewrite Hsign; simpl. rewrite Hsend; simpl.
  rewrite <- !app_assoc. reflexivity.
Qed.

Lemma allocate_succeeds_when_every_call_answers_witness :
  allocateTokensToWallet (stub_deps (env_with_key good_key)) "0xRecipient" 1000
    empty_world
  = (Return tt,
     mkWorld []
       (funding_calls (stub_deps (env_with_key good_key)) "0xRecipient" 1000
          (mkAccount "0xSender") "0xa9059cbb0xRecipient" 52000
          (mkSigned "0x02f8") (mkReceipt "0xbeef"))).
Proof.
  apply (allocate_succeeds_when_every_call_answers
           (stub_deps (env_with_key good_key)) "0xRecipient" 1000 empty_world).
  - exists good_key. repeat split.
  - repeat split.
Defined.

(** X18. Conversely, the method returns only if the key is well formed and every
    one of its web3 calls answered; the world it leaves is then the table
    as found and the thirteen calls added to the trace. *)
Theorem allocate_success_means_every_call_answered (deps : Deps)
    (walletAddress : string) (amount : Z) (w w' : World) :
  allocateTokensToWallet deps walletAddress amount w = (Return tt, w') ->
  exists account data gas signed receipt,
    well_formed_key (config deps "PRIVATE_KEY")
    /\ every_call_answers deps walletAddress amount account data gas signed receipt
    /\ w' = mkWorld (db w)
              (trace w
               ++ funding_calls deps walletAddress amount account data gas
                    signed receipt).
Proof.
  unfold every_call_answers, funding_calls, provider_url, funding_tx.
  unfold_run. repeat next_answer; intros Hrun; try discriminate Hrun.
  injection Hrun as <-.
  repeat match goal with u : unit |- _ => destruct u end.
  do 5 eexists. split; [apply invalid_private_key_false; eassumption|].
  split.
  - repeat split; eassumption.
  - rewrite <- !app_assoc. reflexivity.
Qed.

Lemma allocate_success_means_every_call_answered_witness :
  exists account data gas signed receipt,
    well_formed_key (config (stub_deps (env_with_key good_key)) "PRIVATE_KEY")
    /\ every_call_answers (stub_deps (env_with_key good_key)) "0xRecipient" 1000
         account data gas signed receipt
    /\ gas = 52000.
Proof.
  destruct (allocate_success_means_every_call_answered
              (stub_deps (env_with_key good_key)) "0xRecipient" 1000 empty_world
              _ allocate_happy_path)
    as [account [data [gas [signed [receipt [Hkey [Hall _]]]]]]].
  exists account, data, gas, signed, receipt.
  split; [exact Hkey|]. split; [exact Hall|].
  destruct Hall as (_ & _ & _ & _ & _ & Hgas & _).
  simpl in Hgas. now injection Hgas as <-.
Defined.

(** ** What a login reports *)

Lemma validateUser_stored_user_witness :
  emails_unique (db alice_world)
  /\ validateUser (stub_deps no_config) (User.email alice) "secret" alice_world
     = (Return (Some alice), alice_world).
Proof.
  assert (Huniq : emails_unique (db alice_world)).
  { unfold emails_unique. simpl. constructor; [intros [] | constructor]. }
  split; [exact Huniq|].
  apply (validateUser_stored_user (stub_deps no_config) "secret" alice_world alice Huniq).
  - left. reflexivity.
  - reflexivity.
Defined.

(** X10. The user object of a successful login reports the columns of the stored
    row as they are: id, name, email, the two flags, the balance and the two
    row timestamps are those of the row the email was looked up to. *)
Theorem login_reports_stored_columns (deps : Deps) (e pw : string) (w : World)
    (u : User) :
  valid_credentials deps e pw w u ->
  exists payload projection,
    fst (login deps e pw w) = Return payload
    /\ js_path ["data"; "user"] payload = Some projection
    /\ js_get "id" projection = Some (JsNumber (User.id u))
    /\ js_get "full_name" projection = Some (JsString (User.full_name u))
    /\ js_get "email" projection = Some (JsString e)
    /\ js_get "is_active" projection = Some (JsBool (User.is_active u))
    /\ js_get "is_verified" projection = Some (JsBool (User.is_verified u))
    /\ js_get "token_balance" projection = Some (JsNumber (User.token_balance u))
    /\ js_get "created_at" projection = Some (JsDate (User.created_at u))
    /\ js_get "updated_at" projection = Some (JsDate (User.updated_at u)).
Proof.
  intros Hvalid. rewrite (login_run_valid _ _ _ _ _ Hvalid).
  destruct Hvalid as [Hf _]. apply find_by_email_some in Hf. destruct Hf as [_ <-].
  do 2 eexists. simpl. repeat split.
Qed.

Lemma login_reports_stored_columns_witness :
  exists payload projection,
    fst (login (stub_deps no_config) "a@x.com" "secret" alice_world) = Return payload
    /\ js_path ["data"; "user"] payload = Some projection
    /\ js_get "token_balance" projection = Some (JsNumber 1000)
    /\ js_get "is_verified" projection = Some (JsBool false).
Proof.
  destruct (login_reports_stored_columns (stub_deps no_config) "a@x.com" "secret"
              alice_world alice alice_valid)
    as [payload [projection [H1 [H2 [_ [_ [_ [_ [H3 [H4 _]]]]]]]]]].
  exists payload, projection. repeat split; assumption.
Defined.

(** ** Registrations that overlap *)

(** [register] is its lookup followed, when the lookup finds nothing, by
    hashing and storing. *)
Lemma register_in_two_stretches (deps : Deps) (dto : RegisterUserDto) (w : World) :
  register deps dto w
  = bind (register_lookup dto)
      (fun existingUser =>
         match existingUser with
         | Some _ => throw (BadRequestException "Email is already registered")
         | None => register_store deps dto
         end) w.
Proof. reflexivity. Qed.

(** X19. Nothing guards the lookup and the store of [register] against
    another request in between.  When two requests for the same free email
    overlap so that both lookups are made before either store, both lookups
    find nothing, both stores go through, and the table ends with two rows
    carrying that email: the invariant that emails are unique is lost. *)
Theorem overlapping_registrations_duplicate_email (deps : Deps)
    (first second : RegisterUserDto) (w : World) :
  email_unknown (dto_email first) (db w) ->
  dto_email second = dto_email first ->
  register_lookup first w = (Return None, w)
  /\ register_lookup second w = (Return None, w)
  /\ exists u1 u2,
       register_store deps first w
       = (Return u1, mkWorld (db w ++ [u1]) (trace w))
       /\ register_store deps second (mkWorld (db w ++ [u1]) (trace w))
          = (Return u2, mkWorld ((db w ++ [u1]) ++ [u2]) (trace w))
       /\ User.email u1 = dto_email first
       /\ User.email u2 = dto_email first
       /\ ~ emails_unique ((db w ++ [u1]) ++ [u2]).
Proof.
  intros Hfresh Hsame. apply find_by_email_unknown in Hfresh.
  unfold register_lookup, findOne. rewrite Hsame, Hfresh.
  split; [reflexivity|]. split; [reflexivity|].
  unfold register_store, bind, ret, save, create. simpl.
  do 2 eexists. split; [reflexivity|]. split; [reflexivity|].
  simpl. split; [reflexivity|]. split; [exact Hsame|].
  unfold emails_unique. rewrite <- app_assoc, map_app. simpl.
  intros Hnd. apply NoDup_app_remove_l in Hnd.
  inversion Hnd as [|? ? Hnotin _]; subst. apply Hnotin.
  left. exact Hsame.
Qed.

Lemma overlapping_registrations_duplicate_email_witness :
  exists u1 u2,
    register_store (stub_deps no_config) alice_dto empty_world
    = (Return u1, mkWorld [u1] [])
    /\ register_store (stub_deps no_config)
         (mkDto "a@x.com" "other" "Mallory" (Some "0xM")) (mkWorld [u1] [])
       = (Return u2, mkWorld [u1; u2] [])
    /\ User.email u1 = "a@x.com"
    /\ User.email u2 = "a@x.com"
    /\ ~ emails_unique [u1; u2].
Proof.
  assert (Hfresh : email_unknown (dto_email alice_dto) (db empty_world)).
  { intros u Hin. destruct Hin. }
  assert (Hsame : dto_email (mkDto "a@x.com" "other" "Mallory" (Some "0xM"))
                  = dto_email alice_dto) by reflexivity.
  destruct (overlapping_registrations_duplicate_email (stub_deps no_config)
              alice_dto (mkDto "a@x.com" "other" "Mallory" (Some "0xM"))
              empty_world Hfresh Hsame)
    as [_ [_ [u1 [u2 [H1 [H2 [H3 [H4 H5]]]]]]]].
  exists u1, u2. repeat split; assumption.
Defined.
